(** * Failed-pod automatic restart: classifier, eviction-reason extractor
      and restart-count accountant of the workflow controller.

    The development embeds three Go sources:
    - [workflow/controller/pod_restart.go], the exact-match classifier and
      the eviction-reason extractor              (module [PodRestart]);
    - the variant with exported names: reason table, message and condition
      matching, init-container gate, accountant  (module [Part004]);
    - the variant with unexported names: the same table and matching
      without the init-container gate, and an accountant that reads the
      same as the exported one                   (module [Part003]).

    Go strings are byte strings ([string]); [int32] values are [Z] with the
    wrap-around written out; a Go map is a [gmap], a nil map is [None]. *)

From Stdlib Require Import ZArith Ascii String List Bool Lia.
From stdpp Require Import gmap strings.

Import ListNotations.
Local Open Scope string_scope.
Local Open Scope Z_scope.

(** [simpl] may unfold the append of byte strings again. *)
#[local] Arguments String.append !_ _ / : simpl nomatch.

(** ** Go runtime and standard library pieces used by the sources *)

(** The Go package [strings], on byte strings. *)
Module GoStrings.

(** [len(s)] as a Go [int]. *)
Definition len (s : string) : Z := Z.of_nat (String.length s).

(** [strings.HasPrefix(s, prefix)]. *)
Definition HasPrefix (s prefix : string) : bool := String.prefix prefix s.

(** Scan of [strings.Index]: [i] is the offset of [s] in the original
    string; the first offset at which [substr] starts, or [-1]. *)
Fixpoint IndexFrom (i : Z) (s substr : string) : Z :=
  if HasPrefix s substr then i
  else match s with
       | EmptyString => -1
       | String _ s' => IndexFrom (i + 1) s' substr
       end.

(** [strings.Index(s, substr)]. *)
Definition Index (s substr : string) : Z := IndexFrom 0 s substr.

(** [strings.Contains(s, substr)]: [Index(s, substr) >= 0]. *)
Definition Contains (s substr : string) : bool := 0 <=? Index s substr.

(** The slice expression [s[lo:hi]]; [None] is the run-time panic
    "slice bounds out of range". *)
Definition slice (s : string) (lo hi : Z) : option string :=
  if (0 <=? lo) && (lo <=? hi) && (hi <=? len s)
  then Some (String.substring (Z.to_nat lo) (Z.to_nat (hi - lo)) s)
  else None.

(** The slice expression [s[lo:]]. *)
Definition slice_from (s : string) (lo : Z) : option string :=
  slice s lo (len s).

End GoStrings.

(** Signed 32-bit integers. *)
Module Int32.

(** Conversion to [int32] and the result of [int32] arithmetic:
    two's-complement wrap-around. *)
Definition wrap (z : Z) : Z := (z + 2 ^ 31) mod 2 ^ 32 - 2 ^ 31.

(** [a + b] on [int32] operands. *)
Definition add (a b : Z) : Z := wrap (a + b).

End Int32.

(** The Go package [strconv], base 10 only (both call sites pass 10). *)
Module GoStrconv.

(** The value of an ASCII decimal digit. *)
Definition digitVal (c : ascii) : option Z :=
  let n := Z.of_N (N_of_ascii c) in
  if (48 <=? n) && (n <=? 57) then Some (n - 48) else None.

(** The digit loop of [ParseUint]: a byte that is not a digit is a
    syntax error. *)
Fixpoint parseDigits (acc : Z) (s : string) : option Z :=
  match s with
  | EmptyString => Some acc
  | String c s' =>
      match digitVal c with
      | Some d => parseDigits (acc * 10 + d) s'
      | None => None
      end
  end.

(** [strconv.ParseUint(s, 10, bitSize)] as far as [ParseInt] observes it:
    the empty string is a syntax error; the magnitude is kept exact, since
    [ParseInt] rejects whatever reaches its own cutoff, and a magnitude
    that [ParseUint] clamps is beyond that cutoff. *)
Definition ParseUint (s : string) : option Z :=
  match s with
  | EmptyString => None
  | _ => parseDigits 0 s
  end.

(** [strconv.ParseInt(s, 10, bitSize)]: [Some n] when [err == nil],
    [None] on a syntax or range error. *)
Definition ParseInt (s : string) (bitSize : Z) : option Z :=
  match s with
  | EmptyString => None
  | String c rest =>
      let neg := Ascii.eqb c "-" in
      let body := if Ascii.eqb c "+" || Ascii.eqb c "-" then rest else s in
      match ParseUint body with
      | None => None
      | Some un =>
          let cutoff := 2 ^ (bitSize - 1) in
          if negb neg && (cutoff <=? un) then None
          else if neg && (cutoff <? un) then None
          else Some (if neg then - un else un)
      end
  end.

(** The ASCII digit of [d], for [0 <= d < 10]. *)
Definition digitChar (d : Z) : ascii := ascii_of_N (Z.to_N (48 + d)).

(** The digit loop of [formatBits]: the digits of [u] are put in front
    of [acc], least significant first. *)
Fixpoint formatBits (fuel : nat) (u : Z) (acc : string) : string :=
  match fuel with
  | O => acc
  | S fuel' =>
      if u <? 10 then String (digitChar u) acc
      else formatBits fuel' (u / 10) (String (digitChar (u mod 10)) acc)
  end.

(** An [int64] has at most 19 decimal digits. *)
Definition maxDigits : nat := 20.

(** [strconv.FormatInt(i, 10)]. *)
Definition FormatInt (i : Z) : string :=
  if i <? 0 then String "-" (formatBits maxDigits (- i) EmptyString)
  else formatBits maxDigits i EmptyString.

End GoStrconv.

(** ** Kubernetes API objects ([k8s.io/api/core/v1]), as the sources read them *)

Module metav1.

(** [metav1.Time]: seconds and nanoseconds since the zero instant. *)
Record Time := { sec : Z; nsec : Z }.

Definition IsZero (t : Time) : bool := (sec t =? 0) && (nsec t =? 0).

Definition zero : Time := {| sec := 0; nsec := 0 |}.

End metav1.

Module apiv1.

Record ContainerStateWaiting := {
  WaitingReason : string;
  WaitingMessage : string }.

Record ContainerStateRunning := {
  RunningStartedAt : metav1.Time }.

Record ContainerStateTerminated := {
  ExitCode : Z;
  TerminatedReason : string;
  StartedAt : metav1.Time;
  FinishedAt : metav1.Time }.

(** [ContainerState]: three pointers, [nil] is [None]. *)
Record ContainerState := {
  Waiting : option ContainerStateWaiting;
  Running : option ContainerStateRunning;
  Terminated : option ContainerStateTerminated }.

Record ContainerStatus := {
  Name : string;
  State : ContainerState;
  LastTerminationState : ContainerState;
  Ready : bool;
  RestartCount : Z }.

(** [PodPhase] and [ConditionStatus] are string types. *)
Definition PodPending : string := "Pending".
Definition PodRunning : string := "Running".
Definition PodSucceeded : string := "Succeeded".
Definition PodFailed : string := "Failed".
Definition PodUnknown : string := "Unknown".

Definition ConditionTrue : string := "True".
Definition ConditionFalse : string := "False".
Definition ConditionUnknown : string := "Unknown".

Record PodCondition := {
  Type_ : string;
  CondStatus : string }.

Record PodStatus := {
  Phase : string;
  Conditions : list PodCondition;
  Message : string;
  Reason : string;
  InitContainerStatuses : list ContainerStatus;
  ContainerStatuses : list ContainerStatus }.

Record Pod := { Status : PodStatus }.

End apiv1.

(** ** Workflow API objects and constants *)

Module wfv1.

(** Modelled from the spec: the declaration of [wfv1.Template] and its
    method [IsMainContainerName] are not among the sources; the template
    descriptor carries the template name and the predicate that tells
    which containers execute user code. *)
Record Template := {
  TemplateName : string;
  IsMainContainerName : string -> bool }.

(** [ObjectMeta.Annotations] of a workflow: a Go map, possibly nil. *)
Record Workflow := { Annotations : option (gmap string string) }.

End wfv1.

Module common.

(** Modelled from the spec: the constant's declaration is not among the
    sources; without a template the classifier falls back to the literal
    name "main". *)
Definition MainContainerName : string := "main".

(** Modelled from the spec: the constant's declaration is not among the
    sources; the reserved annotation keys are prefixed by this string. *)
Definition AnnotationKeyFailedPodRestartCountPrefix : string :=
  "workflows.argoproj.io/failed-pod-restart-count/".

End common.

(** Non-nil test of a pointer field. *)
Definition notNil {A : Type} (p : option A) : bool :=
  match p with Some _ => true | None => false end.

(** ** [workflow/controller/pod_restart.go] *)

Module PodRestart.
Import apiv1.

Record podRestartInfo := {
  shouldRestart : bool;
  reason : string;
  neverStarted : bool }.

(** The test [isMainContainer] of the loop body. *)
Definition isMainContainer (tmpl : option wfv1.Template) (name : string) : bool :=
  match tmpl with
  | Some t => wfv1.IsMainContainerName t name
  | None => String.eqb name common.MainContainerName
  end.

(** The [for ... range pod.Status.ContainerStatuses] loop with its two
    early [return false]; falling off the loop returns [true]. *)
Fixpoint mainContainersLoop (tmpl : option wfv1.Template)
    (statuses : list ContainerStatus) : bool :=
  match statuses with
  | [] => true
  | status :: rest =>
      if isMainContainer tmpl (Name status) then
        if notNil (Running (State status))
           || notNil (Running (LastTerminationState status))
        then false
        else
          match Terminated (State status) with
          | Some t =>
              if negb (metav1.IsZero (StartedAt t)) then false
              else mainContainersLoop tmpl rest
          | None => mainContainersLoop tmpl rest
          end
      else mainContainersLoop tmpl rest
  end.

Definition mainContainerNeverStarted (pod : Pod) (tmpl : option wfv1.Template) : bool :=
  match ContainerStatuses (Status pod) with
  | [] => true
  | statuses => mainContainersLoop tmpl statuses
  end.

Definition isRestartableReason (reason : string) : bool :=
  if String.eqb reason "Evicted" then true
  else if String.eqb reason "NodeShutdown" then true
  else if String.eqb reason "NodeAffinity" then true
  else if String.eqb reason "UnexpectedAdmissionError" then true
  else false.

Definition analyzePodForRestart (pod : Pod) (tmpl : option wfv1.Template) : podRestartInfo :=
  let info := {| shouldRestart := false;
                 reason := Reason (Status pod);
                 neverStarted := false |} in
  if negb (String.eqb (Phase (Status pod)) PodFailed) then info
  else
    let info := {| shouldRestart := shouldRestart info;
                   reason := reason info;
                   neverStarted := mainContainerNeverStarted pod tmpl |} in
    if negb (neverStarted info) then info
    else {| shouldRestart := isRestartableReason (Reason (Status pod));
            reason := reason info;
            neverStarted := neverStarted info |}.

(** [None] is a run-time panic of a slice expression. *)
Definition getEvictionReason (pod : Pod) : option string :=
  if negb (String.eqb (Reason (Status pod)) "Evicted") then Some EmptyString
  else
    let msg := Message (Status pod) in
    let idx := GoStrings.Index msg "[" in
    if negb (idx =? -1) then
      match GoStrings.slice_from msg idx with
      | None => None
      | Some tail =>
          let endIdx := GoStrings.Index tail "]" in
          if negb (endIdx =? -1) then GoStrings.slice msg (idx + 1) (idx + endIdx)
          else Some (Reason (Status pod))
      end
    else Some (Reason (Status pod)).

End PodRestart.

(** ** The variant with exported names: classifier, extractor, accountant *)

Module Part004.
Import apiv1.

Definition RestartableReasonEvicted : string := "Evicted".
Definition RestartableReasonPreempted : string := "Preempted".
Definition RestartableReasonNodeShutdown : string := "NodeShutdown".
Definition RestartableReasonNodeAffinity : string := "NodeAffinity".
Definition RestartableReasonUnexpectedAdmissionError : string :=
  "UnexpectedAdmissionError".

(** The package-level map [restartableReasons]. *)
Definition restartableReasons : gmap string bool :=
  <[RestartableReasonEvicted := true]>
  (<[RestartableReasonPreempted := true]>
  (<[RestartableReasonNodeShutdown := true]>
  (<[RestartableReasonNodeAffinity := true]>
  (<[RestartableReasonUnexpectedAdmissionError := true]> ∅)))).

Record PodRestartInfo := {
  ShouldRestart : bool;
  Reason : string;
  Message : string;
  NeverStarted : bool }.

(** The [for ... range conditions] loop of [isRestartableReason]. *)
Fixpoint disruptionTargetLoop (conditions : list PodCondition) : bool :=
  match conditions with
  | [] => false
  | cond :: rest =>
      if String.eqb (Type_ cond) "DisruptionTarget"
         && String.eqb (CondStatus cond) ConditionTrue
      then true
      else disruptionTargetLoop rest
  end.

Definition isRestartableReason (reason message : string)
    (conditions : list PodCondition) : bool :=
  if notNil (restartableReasons !! reason) then true
  else if String.eqb reason "Evicted"
          || GoStrings.Contains message "The node had condition:" then true
  else if GoStrings.Contains message "Preempted"
          || GoStrings.Contains message "preempted" then true
  else if GoStrings.Contains message "node is shutting down" then true
  else disruptionTargetLoop conditions.

Section WithInitContainerName.

(** [common.InitContainerName]; its declaration is not among the
    sources, so the functions that read it take it as a parameter. *)
Variable InitContainerName : string.

(** The [for ... range pod.Status.InitContainerStatuses] loop: [true]
    when the loop executes its [return true], [false] when it runs to
    its end. *)
Fixpoint initContainersLoop (statuses : list ContainerStatus) : bool :=
  match statuses with
  | [] => false
  | status :: rest =>
      if String.eqb (Name status) InitContainerName then
        if negb (notNil (Running (State status)))
           && negb (notNil (Running (LastTerminationState status)))
        then
          if notNil (Terminated (State status)) then initContainersLoop rest
          else if notNil (Waiting (State status)) then true
          else initContainersLoop rest
        else initContainersLoop rest
      else initContainersLoop rest
  end.

(** The loop over [pod.Status.ContainerStatuses] reads as the one of
    [pod_restart.go], statement for statement. *)
Definition mainContainerNeverStarted (pod : Pod) (tmpl : option wfv1.Template) : bool :=
  let allStatuses :=
    (InitContainerStatuses (Status pod) ++ ContainerStatuses (Status pod))%list in
  if Nat.eqb (List.length allStatuses) 0 then true
  else if initContainersLoop (InitContainerStatuses (Status pod)) then true
  else PodRestart.mainContainersLoop tmpl (ContainerStatuses (Status pod)).

Definition AnalyzePodForRestart (pod : Pod) (tmpl : option wfv1.Template) : PodRestartInfo :=
  let info := {| ShouldRestart := false;
                 Reason := apiv1.Reason (Status pod);
                 Message := apiv1.Message (Status pod);
                 NeverStarted := false |} in
  if negb (String.eqb (Phase (Status pod)) PodFailed) then info
  else
    let info := {| ShouldRestart := ShouldRestart info;
                   Reason := Reason info;
                   Message := Message info;
                   NeverStarted := mainContainerNeverStarted pod tmpl |} in
    if negb (NeverStarted info) then info
    else if isRestartableReason (apiv1.Reason (Status pod))
              (apiv1.Message (Status pod)) (Conditions (Status pod))
    then {| ShouldRestart := true;
            Reason := Reason info;
            Message := Message info;
            NeverStarted := NeverStarted info |}
    else info.

End WithInitContainerName.

(** [None] is a run-time panic of a slice expression. *)
Definition GetEvictionReason (pod : Pod) : option string :=
  if negb (String.eqb (apiv1.Reason (Status pod)) "Evicted") then Some EmptyString
  else
    let msg := apiv1.Message (Status pod) in
    let idx := GoStrings.Index msg "[" in
    if negb (idx =? -1) then
      match GoStrings.slice_from msg idx with
      | None => None
      | Some tail =>
          let endIdx := GoStrings.Index tail "]" in
          if negb (endIdx =? -1) then GoStrings.slice msg (idx + 1) (idx + endIdx)
          else Some (apiv1.Reason (Status pod))
      end
    else Some (apiv1.Reason (Status pod)).

(** The accountant. Each operation takes the workflow and returns its
    result with the workflow as the call leaves it. *)

Definition GetFailedPodRestartCount (wf : wfv1.Workflow) (nodeID : string)
    : Z * wfv1.Workflow :=
  match wfv1.Annotations wf with
  | None => (0, wf)
  | Some annotations =>
      let key := common.AnnotationKeyFailedPodRestartCountPrefix ++ nodeID in
      match annotations !! key with
      | Some countStr =>
          match GoStrconv.ParseInt countStr 32 with
          | Some count => (Int32.wrap count, wf)
          | None => (0, wf)
          end
      | None => (0, wf)
      end
  end.

Definition SetFailedPodRestartCount (wf : wfv1.Workflow) (nodeID : string)
    (count : Z) : bool * wfv1.Workflow :=
  let annotations :=
    match wfv1.Annotations wf with
    | None => ∅
    | Some annotations => annotations
    end in
  let key := common.AnnotationKeyFailedPodRestartCountPrefix ++ nodeID in
  let newValue := GoStrconv.FormatInt count in
  if negb (String.eqb (default EmptyString (annotations !! key)) newValue)
  then (true, {| wfv1.Annotations := Some (<[key := newValue]> annotations) |})
  else (false, {| wfv1.Annotations := Some annotations |}).

Definition IncrementFailedPodRestartCount (wf : wfv1.Workflow) (nodeID : string)
    : Z * wfv1.Workflow :=
  let '(current, wf) := GetFailedPodRestartCount wf nodeID in
  let count := Int32.add current 1 in
  let '(_, wf) := SetFailedPodRestartCount wf nodeID count in
  (count, wf).

End Part004.

(** ** The accountant of the variant with unexported names *)

Module Part003.

Definition getFailedPodRestartCount (wf : wfv1.Workflow) (nodeID : string)
    : Z * wfv1.Workflow :=
  match wfv1.Annotations wf with
  | None => (0, wf)
  | Some annotations =>
      let key := common.AnnotationKeyFailedPodRestartCountPrefix ++ nodeID in
      match annotations !! key with
      | Some countStr =>
          match GoStrconv.ParseInt countStr 32 with
          | Some count => (Int32.wrap count, wf)
          | None => (0, wf)
          end
      | None => (0, wf)
      end
  end.

Definition setFailedPodRestartCount (wf : wfv1.Workflow) (nodeID : string)
    (count : Z) : bool * wfv1.Workflow :=
  let annotations :=
    match wfv1.Annotations wf with
    | None => ∅
    | Some annotations => annotations
    end in
  let key := common.AnnotationKeyFailedPodRestartCountPrefix ++ nodeID in
  let newValue := GoStrconv.FormatInt count in
  if negb (String.eqb (default EmptyString (annotations !! key)) newValue)
  then (true, {| wfv1.Annotations := Some (<[key := newValue]> annotations) |})
  else (false, {| wfv1.Annotations := Some annotations |}).

Definition incrementFailedPodRestartCount (wf : wfv1.Workflow) (nodeID : string)
    : Z * wfv1.Workflow :=
  let '(current, wf) := getFailedPodRestartCount wf nodeID in
  let count := Int32.add current 1 in
  let '(_, wf) := setFailedPodRestartCount wf nodeID count in
  (count, wf).

(** The classifier of the variant with unexported names. *)

Definition restartableReasonEvicted : string := "Evicted".
Definition restartableReasonPreempted : string := "Preempted".
Definition restartableReasonNodeShutdown : string := "NodeShutdown".
Definition restartableReasonNodeAffinity : string := "NodeAffinity".
Definition restartableReasonUnexpectedAdmissionError : string :=
  "UnexpectedAdmissionError".

(** The package-level map [restartableReasons]. *)
Definition restartableReasons : gmap string bool :=
  <[restartableReasonEvicted := true]>
  (<[restartableReasonPreempted := true]>
  (<[restartableReasonNodeShutdown := true]>
  (<[restartableReasonNodeAffinity := true]>
  (<[restartableReasonUnexpectedAdmissionError := true]> ∅)))).

Record podRestartInfo := {
  shouldRestart : bool;
  reason : string;
  message : string;
  neverStarted : bool }.

(** The [for ... range conditions] loop of [isRestartableReason]. *)
Fixpoint disruptionTargetLoop (conditions : list apiv1.PodCondition) : bool :=
  match conditions with
  | [] => false
  | cond :: rest =>
      if String.eqb (apiv1.Type_ cond) "DisruptionTarget"
         && String.eqb (apiv1.CondStatus cond) apiv1.ConditionTrue
      then true
      else disruptionTargetLoop rest
  end.

Definition isRestartableReason (reason message : string)
    (conditions : list apiv1.PodCondition) : bool :=
  if notNil (restartableReasons !! reason) then true
  else if String.eqb reason "Evicted"
          || GoStrings.Contains message "The node had condition:" then true
  else if GoStrings.Contains message "Preempted"
          || GoStrings.Contains message "preempted" then true
  else if GoStrings.Contains message "node is shutting down" then true
  else disruptionTargetLoop conditions.

(** The loop over [pod.Status.ContainerStatuses] reads as the one of
    [pod_restart.go], statement for statement; there is no init-container
    loop in this variant. *)
Definition mainContainerNeverStarted (pod : apiv1.Pod)
    (tmpl : option wfv1.Template) : bool :=
  if Nat.eqb (List.length (apiv1.ContainerStatuses (apiv1.Status pod))) 0 then true
  else PodRestart.mainContainersLoop tmpl (apiv1.ContainerStatuses (apiv1.Status pod)).

Definition analyzePodForRestart (pod : apiv1.Pod) (tmpl : option wfv1.Template)
    : podRestartInfo :=
  let info := {| shouldRestart := false;
                 reason := apiv1.Reason (apiv1.Status pod);
                 message := apiv1.Message (apiv1.Status pod);
                 neverStarted := false |} in
  if negb (String.eqb (apiv1.Phase (apiv1.Status pod)) apiv1.PodFailed) then info
  else
    let info := {| shouldRestart := shouldRestart info;
                   reason := reason info;
                   message := message info;
                   neverStarted := mainContainerNeverStarted pod tmpl |} in
    if negb (neverStarted info) then info
    else if isRestartableReason (apiv1.Reason (apiv1.Status pod))
              (apiv1.Message (apiv1.Status pod))
              (apiv1.Conditions (apiv1.Status pod))
    then {| shouldRestart := true;
            reason := reason info;
            message := message info;
            neverStarted := neverStarted info |}
    else info.

(** [None] is a run-time panic of a slice expression. *)
Definition getEvictionReason (pod : apiv1.Pod) : option string :=
  if negb (String.eqb (apiv1.Reason (apiv1.Status pod)) "Evicted")
  then Some EmptyString
  else
    let msg := apiv1.Message (apiv1.Status pod) in
    let idx := GoStrings.Index msg "[" in
    if negb (idx =? -1) then
      match GoStrings.slice_from msg idx with
      | None => None
      | Some tail =>
          let endIdx := GoStrings.Index tail "]" in
          if negb (endIdx =? -1) then GoStrings.slice msg (idx + 1) (idx + endIdx)
          else Some (apiv1.Reason (apiv1.Status pod))
      end
    else Some (apiv1.Reason (apiv1.Status pod)).

End Part003.

(** ** Vocabulary of the statements *)

Module Props.
Import apiv1.

(** [sub] occurs in [s] as a substring. *)
Definition occursIn (sub s : string) : Prop :=
  exists pre post, s = pre ++ sub ++ post.

(** The byte [c] occurs in [s]. *)
Definition hasByte (c : ascii) (s : string) : Prop :=
  In c (list_ascii_of_string s).

(** A container status that shows the container has run: [Running] now
    or at its last termination, or [Terminated] with a start time. *)
Definition showsRun (status : ContainerStatus) : Prop :=
  Running (State status) <> None
  \/ Running (LastTerminationState status) <> None
  \/ exists t, Terminated (State status) = Some t
               /\ metav1.IsZero (StartedAt t) = false.

(** Some main container of the pod shows it has run. *)
Definition someMainContainerRan (pod : Pod) (tmpl : option wfv1.Template) : Prop :=
  exists status,
    In status (ContainerStatuses (Status pod))
    /\ PodRestart.isMainContainer tmpl (Name status) = true
    /\ showsRun status.

(** An init-container status named [ic] that is [Waiting] and shows no
    run and no termination. *)
Definition initWaiting (ic : string) (status : ContainerStatus) : Prop :=
  Name status = ic
  /\ Running (State status) = None
  /\ Running (LastTerminationState status) = None
  /\ Terminated (State status) = None
  /\ Waiting (State status) <> None.

(** A [DisruptionTarget] condition with status [True]. *)
Definition disruptionTarget (cond : PodCondition) : Prop :=
  Type_ cond = "DisruptionTarget" /\ CondStatus cond = ConditionTrue.

(** The reasons matched by the [switch] of [pod_restart.go]. *)
Definition exactReasons : list string :=
  ["Evicted"; "NodeShutdown"; "NodeAffinity"; "UnexpectedAdmissionError"].

(** The keys of the table [restartableReasons]. *)
Definition tableReasons : list string :=
  ["Evicted"; "Preempted"; "NodeShutdown"; "NodeAffinity";
   "UnexpectedAdmissionError"].

(** The message fragments matched by the table-driven variant. *)
Definition messageFragments : list string :=
  ["The node had condition:"; "Preempted"; "preempted";
   "node is shutting down"].

(** ASCII decimal digits and the value they denote. *)
Definition isDigit (c : ascii) : Prop := 48 <= Z.of_N (N_of_ascii c) <= 57.

Definition digitOf (c : ascii) : Z := Z.of_N (N_of_ascii c) - 48.

Definition allDigits (s : string) : Prop :=
  Forall isDigit (list_ascii_of_string s).

(** The number a run of digits denotes, most significant digit first. *)
Definition decimalValue (s : string) : Z :=
  fold_left (fun acc c => 10 * acc + digitOf c) (list_ascii_of_string s) 0.

(** [s] is a decimal numeral of [v]: a non-empty run of digits (leading
    zeros allowed) after an optional sign. *)
Inductive signedDecimal : string -> Z -> Prop :=
| signedDecimal_plain (ds : string) :
    ds <> EmptyString -> allDigits ds -> signedDecimal ds (decimalValue ds)
| signedDecimal_plus (ds : string) :
    ds <> EmptyString -> allDigits ds ->
    signedDecimal (String "+" ds) (decimalValue ds)
| signedDecimal_minus (ds : string) :
    ds <> EmptyString -> allDigits ds ->
    signedDecimal (String "-" ds) (- decimalValue ds).

(** [s] is a decimal numeral of some [int32]. *)
Definition decimalInt32 (s : string) : Prop :=
  exists v, signedDecimal s v /\ - 2 ^ 31 <= v < 2 ^ 31.

(** [s] is the ASCII decimal encoding of a non-negative [int32]: digits
    only. *)
Definition nonNegativeDecimalInt32 (s : string) : Prop :=
  s <> EmptyString /\ allDigits s /\ decimalValue s < 2 ^ 31.

(** The restart-count annotation of a node, if the workflow has one. *)
Definition storedCount (wf : wfv1.Workflow) (nodeID : string) : option string :=
  match wfv1.Annotations wf with
  | None => None
  | Some annotations =>
      annotations !! (common.AnnotationKeyFailedPodRestartCountPrefix ++ nodeID)
  end.


(** The workflow after [n] calls of [incrementFailedPodRestartCount] for
    the same node. *)
Fixpoint incrementTimes (n : nat) (wf : wfv1.Workflow) (nodeID : string)
    : wfv1.Workflow :=
  match n with
  | O => wf
  | S n' =>
      snd (Part003.incrementFailedPodRestartCount (incrementTimes n' wf nodeID) nodeID)
  end.

(** The annotation of a workflow under [key], if any. *)
Definition annotationOf (wf : wfv1.Workflow) (key : string) : option string :=
  match wfv1.Annotations wf with
  | None => None
  | Some annotations => annotations !! key
  end.

End Props.

(** ** Pods and workflows of the unit tests, and a few more *)

Module Fixtures.
Import apiv1.

Definition noState : ContainerState :=
  {| Waiting := None; Running := None; Terminated := None |}.

Definition waiting (reason : string) : ContainerState :=
  {| Waiting := Some {| WaitingReason := reason; WaitingMessage := "" |};
     Running := None; Terminated := None |}.

Definition running (startedAt : metav1.Time) : ContainerState :=
  {| Waiting := None;
     Running := Some {| RunningStartedAt := startedAt |};
     Terminated := None |}.

Definition terminated (code : Z) (reason : string) (startedAt : metav1.Time)
    : ContainerState :=
  {| Waiting := None; Running := None;
     Terminated := Some {| ExitCode := code; TerminatedReason := reason;
                           StartedAt := startedAt; FinishedAt := startedAt |} |}.

Definition container (name : string) (st : ContainerState) : ContainerStatus :=
  {| Name := name; State := st; LastTerminationState := noState;
     Ready := false; RestartCount := 0 |}.

Definition mkPod (phase reason message : string)
    (conds : list PodCondition) (inits statuses : list ContainerStatus) : Pod :=
  {| Status := {| Phase := phase; Conditions := conds; Message := message;
                  Reason := reason; InitContainerStatuses := inits;
                  ContainerStatuses := statuses |} |}.

(** Some instant after the zero instant. *)
Definition now : metav1.Time := {| metav1.sec := 63900000000; metav1.nsec := 0 |}.

(** "evicted pod that never started should restart" *)
Definition evictedBeforeStart : Pod :=
  mkPod PodFailed "Evicted" "The node had condition: [DiskPressure]" [] []
        [container "main" (waiting "ContainerCreating")].

(** "evicted pod that ran should not restart" *)
Definition evictedAfterRun : Pod :=
  mkPod PodFailed "Evicted" "The node had condition: [DiskPressure]" [] []
        [container "main" (terminated 137 "" now)].

(** "failed pod with non-restartable reason should not restart" *)
Definition oomBeforeStart : Pod :=
  mkPod PodFailed "OOMKilled" "" [] [] [container "main" (waiting "")].

(** "running pod should not restart" *)
Definition runningPod : Pod := mkPod PodRunning "" "" [] [] [].

(** An evicted pod that never started, reported in phase [Unknown]. *)
Definition evictedUnknownPhase : Pod :=
  mkPod PodUnknown "Evicted" "The node had condition: [DiskPressure]" [] []
        [container "main" (waiting "ContainerCreating")].

(** "evicted without bracket format" *)
Definition evictedNoBrackets : Pod :=
  mkPod "" "Evicted" "Node out of resources" [] [] [].

(** "not evicted" *)
Definition notEvicted : Pod :=
  mkPod "" "OOMKilled" "Container killed" [] [] [].

(** A failed pod with reason [Preempted] and no container status. *)
Definition preemptedUnscheduled : Pod := mkPod PodFailed "Preempted" "" [] [] [].

(** "preempted in message": a failed pod with no reason. *)
Definition preemptedInMessage : Pod :=
  mkPod PodFailed "" "Pod was preempted by higher priority pod" [] [] [].

(** A failed, evicted pod whose main container is running while the
    status of the init container named "init" is still [Waiting]. *)
Definition runningBehindWaitingInit : Pod :=
  mkPod PodFailed "Evicted" "The node had condition: [DiskPressure]" []
        [container "init" (waiting "PodInitializing")]
        [container "main" (running now)].

(** A failed pod whose only listed container is a running sidecar. *)
Definition sidecarOnly : Pod :=
  mkPod PodFailed "Evicted" "" [] [] [container "sidecar" (running now)].

(** A failed, evicted pod without container statuses. *)
Definition evictedUnscheduled : Pod :=
  mkPod PodFailed "Evicted" "Node out of resources" [] [] [].

Definition countKey (nodeID : string) : string :=
  common.AnnotationKeyFailedPodRestartCountPrefix ++ nodeID.

(** A workflow without annotations map. *)
Definition emptyWorkflow : wfv1.Workflow := {| wfv1.Annotations := None |}.

(** A workflow whose count annotation for "node-123" is [value]. *)
Definition annotated (value : string) : wfv1.Workflow :=
  {| wfv1.Annotations := Some (<[countKey "node-123" := value]> ∅) |}.

(** The pod of the end-to-end test: evicted while its init container
    "delay" was killed and its main container waited for it. *)
Definition evictedDuringInit : Pod :=
  mkPod PodFailed "Evicted" "The node had condition: [DiskPressure]" []
        [container "delay" (terminated 137 "Error" metav1.zero)]
        [container "main" (waiting "PodInitializing")].


End Fixtures.

(** ** The never-started determination *)

Section NeverStarted.
Import apiv1 Props.

Variable tmpl : option wfv1.Template.

Lemma notNil_true {A : Type} (p : option A) : notNil p = true <-> p <> None.
Proof. destruct p; simpl; split; congruence. Qed.

Lemma notNil_false {A : Type} (p : option A) : notNil p = false <-> p = None.
Proof. destruct p; simpl; split; congruence. Qed.

(** One iteration of the loop body on a main container that has run
    leaves the function with [false]. *)
Lemma loop_head_ran status rest :
  PodRestart.isMainContainer tmpl (Name status) = true ->
  showsRun status ->
  PodRestart.mainContainersLoop tmpl (status :: rest) = false.
Proof.
  intros Hmain Hrun. simpl. rewrite Hmain.
  destruct Hrun as [Hr | [Hr | (t & Ht & Hz)]].
  - apply notNil_true in Hr. now rewrite Hr.
  - apply notNil_true in Hr. rewrite Hr. now rewrite orb_true_r.
  - rewrite Ht, Hz. simpl. now destruct (_ || _).
Qed.

(** One iteration on any other status goes on with the rest. *)
Lemma loop_head_skip status rest :
  PodRestart.isMainContainer tmpl (Name status) = false \/ ~ showsRun status ->
  PodRestart.mainContainersLoop tmpl (status :: rest)
  = PodRestart.mainContainersLoop tmpl rest.
Proof.
  intros H. simpl.
  destruct (PodRestart.isMainContainer tmpl (Name status)) eqn:Hmain; [|reflexivity].
  destruct H as [H | H]; [discriminate|].
  destruct (notNil (Running (State status))) eqn:H1.
  { exfalso. apply H. left. now apply notNil_true. }
  destruct (notNil (Running (LastTerminationState status))) eqn:H2.
  { exfalso. apply H. right. left. now apply notNil_true. }
  simpl. destruct (Terminated (State status)) as [t|] eqn:Ht; [|reflexivity].
  destruct (metav1.IsZero (StartedAt t)) eqn:Hz; [reflexivity|].
  exfalso. apply H. right. right. now exists t.
Qed.

Lemma showsRun_dec status : showsRun status \/ ~ showsRun status.
Proof.
  unfold showsRun.
  destruct (Running (State status)); [left; left; congruence|].
  destruct (Running (LastTerminationState status)); [left; right; left; congruence|].
  destruct (Terminated (State status)) as [t|].
  - destruct (metav1.IsZero (StartedAt t)) eqn:Hz.
    + right. intros [H | [H | (t' & Ht & Hz')]]; try congruence.
    + left. right. right. now exists t.
  - right. intros [H | [H | (t' & Ht & Hz')]]; congruence.
Qed.

(** The loop returns [false] exactly when some main container has run. *)
Lemma mainContainersLoop_false statuses :
  PodRestart.mainContainersLoop tmpl statuses = false
  <-> exists status, In status statuses
        /\ PodRestart.isMainContainer tmpl (Name status) = true
        /\ showsRun status.
Proof.
  induction statuses as [|status rest IH].
  - simpl. split; [discriminate | intros (? & [] & _)].
  - destruct (PodRestart.isMainContainer tmpl (Name status)) eqn:Hmain.
    + destruct (showsRun_dec status) as [Hrun | Hrun].
      * rewrite (loop_head_ran _ _ Hmain Hrun). split; [|reflexivity].
        intros _. exists status. simpl. auto.
      * rewrite loop_head_skip by (now right). rewrite IH.
        split; intros (st & Hin & Hm & Hr).
        -- exists st. simpl. auto.
        -- destruct Hin as [-> | Hin]; [contradiction|]. now exists st.
    + rewrite loop_head_skip by (now left). rewrite IH.
      split; intros (st & Hin & Hm & Hr).
      * exists st. simpl. auto.
      * destruct Hin as [-> | Hin]; [congruence|]. now exists st.
Qed.

Lemma mainContainersLoop_no_main statuses :
  Forall (fun status => PodRestart.isMainContainer tmpl (Name status) = false) statuses ->
  PodRestart.mainContainersLoop tmpl statuses = true.
Proof.
  intros Hall. destruct (PodRestart.mainContainersLoop tmpl statuses) eqn:E; [reflexivity|].
  apply mainContainersLoop_false in E as (st & Hin & Hm & _).
  rewrite List.Forall_forall in Hall. specialize (Hall st Hin). simpl in Hall. congruence.
Qed.

(** In [pod_restart.go] the test for an empty list agrees with the loop. *)
Lemma mainContainerNeverStarted_loop pod :
  PodRestart.mainContainerNeverStarted pod tmpl
  = PodRestart.mainContainersLoop tmpl (ContainerStatuses (Status pod)).
Proof.
  unfold PodRestart.mainContainerNeverStarted.
  now destruct (ContainerStatuses (Status pod)).
Qed.

Lemma mainContainerNeverStarted_false pod :
  PodRestart.mainContainerNeverStarted pod tmpl = false
  <-> someMainContainerRan pod tmpl.
Proof. rewrite mainContainerNeverStarted_loop. apply mainContainersLoop_false. Qed.

Variable InitContainerName : string.

(** The init-container loop returns [true] exactly when some status of
    the init container is [Waiting] with no run and no termination. *)
Lemma initContainersLoop_true statuses :
  Part004.initContainersLoop InitContainerName statuses = true
  <-> Exists (initWaiting InitContainerName) statuses.
Proof.
  induction statuses as [|status rest IH].
  - simpl. split; [discriminate | intros H; inversion H].
  - rewrite List.Exists_cons, <- IH. simpl. unfold initWaiting.
    destruct (String.eqb (Name status) InitContainerName) eqn:Hn.
    + apply String.eqb_eq in Hn.
      destruct (Running (State status)) eqn:H1; simpl;
        [split; [auto | intros [(_ & ? & _) | ?]; [congruence | auto]]|].
      destruct (Running (LastTerminationState status)) eqn:H2; simpl;
        [split; [auto | intros [(_ & _ & ? & _) | ?]; [congruence | auto]]|].
      destruct (Terminated (State status)) eqn:H3; simpl;
        [split; [auto | intros [(_ & _ & _ & ? & _) | ?]; [congruence | auto]]|].
      destruct (Waiting (State status)) eqn:H4; simpl.
      * split; [intros _; left; repeat split; congruence | reflexivity].
      * split; [auto | intros [(_ & _ & _ & _ & ?) | ?]; [congruence | auto]].
    + apply String.eqb_neq in Hn.
      split; [auto | intros [(? & _) | ?]; [congruence | auto]].
Qed.

Lemma initContainersLoop_false statuses :
  Part004.initContainersLoop InitContainerName statuses = false
  <-> Forall (fun status => ~ initWaiting InitContainerName status) statuses.
Proof.
  rewrite List.Forall_Exists_neg, <- initContainersLoop_true.
  destruct (Part004.initContainersLoop _ _); split; congruence.
Qed.

(** The never-started determination of the variant with the init gate. *)
Lemma Part004_mainContainerNeverStarted_false pod :
  Part004.mainContainerNeverStarted InitContainerName pod tmpl = false
  <-> Forall (fun status => ~ initWaiting InitContainerName status)
             (InitContainerStatuses (Status pod))
      /\ someMainContainerRan pod tmpl.
Proof.
  unfold Part004.mainContainerNeverStarted, someMainContainerRan.
  rewrite <- initContainersLoop_false, <- mainContainersLoop_false.
  destruct (InitContainerStatuses (Status pod)) as [|i inits] eqn:Hi.
  - destruct (ContainerStatuses (Status pod)) as [|c cs] eqn:Hc; simpl.
    + split; [discriminate | intros [_ ?]; discriminate].
    + split; [now split | now intros [_ ?]].
  - cbn [app List.length Nat.eqb].
    destruct (Part004.initContainersLoop InitContainerName (i :: inits)).
    + split; [discriminate | intros [? _]; discriminate].
    + split; [now split | now intros [_ ?]].
Qed.

End NeverStarted.

(** ** Facts about the string primitives *)

Section GoStringsFacts.
Import Props.

Lemma HasPrefix_spec (p s : string) :
  GoStrings.HasPrefix s p = true <-> exists post, s = p ++ post.
Proof.
  unfold GoStrings.HasPrefix. revert s.
  induction p as [|a p IH]; intros s.
  - destruct s; simpl; (split; [intros _; eexists; reflexivity | reflexivity]).
  - destruct s as [|b s]; simpl.
    + split; [discriminate | intros [post H]; discriminate].
    + destruct (ascii_dec a b) as [->|Hne].
      * rewrite IH. split; intros [post H]; exists post; simpl in *; congruence.
      * split; [discriminate | intros [post H]; congruence].
Qed.

Lemma occursIn_nil (sub : string) :
  occursIn sub EmptyString <-> sub = EmptyString.
Proof.
  split.
  - intros (pre & post & H). destruct pre; [|discriminate].
    destruct sub; [reflexivity | discriminate].
  - intros ->. now exists EmptyString, EmptyString.
Qed.

Lemma occursIn_cons (sub : string) (c : ascii) (s : string) :
  occursIn sub (String c s)
  <-> GoStrings.HasPrefix (String c s) sub = true \/ occursIn sub s.
Proof.
  rewrite HasPrefix_spec. split.
  - intros (pre & post & H). destruct pre as [|a pre]; simpl in H.
    + left. now exists post.
    + right. injection H as _ H. now exists pre, post.
  - intros [[post H] | (pre & post & H)].
    + now exists EmptyString, post.
    + exists (String c pre), post. simpl. now rewrite H.
Qed.

(** The scan of [Index] never goes below its starting offset, and it
    fails exactly when the substring does not occur. *)
Lemma IndexFrom_spec (sub s : string) (i : Z) :
  (occursIn sub s /\ i <= GoStrings.IndexFrom i s sub)
  \/ (~ occursIn sub s /\ GoStrings.IndexFrom i s sub = -1).
Proof.
  revert i. induction s as [|c s IH]; intros i.
  - cbn [GoStrings.IndexFrom]. destruct (GoStrings.HasPrefix EmptyString sub) eqn:Hp.
    + left. split; [|lia]. apply occursIn_nil.
      apply HasPrefix_spec in Hp as [post Hp]. now destruct sub.
    + right. split; [|reflexivity]. rewrite occursIn_nil. intros ->.
      discriminate.
  - cbn [GoStrings.IndexFrom]. rewrite occursIn_cons.
    destruct (GoStrings.HasPrefix (String c s) sub) eqn:Hp.
    + left. split; [now left | lia].
    + destruct (IH (i + 1)) as [[Ho Hi] | [Ho Hi]].
      * left. split; [now right | lia].
      * right. split; [|exact Hi]. intros [? | ?]; [discriminate | contradiction].
Qed.

(** [strings.Contains] decides the occurrence of a substring. *)
Lemma Contains_spec (s sub : string) :
  GoStrings.Contains s sub = true <-> occursIn sub s.
Proof.
  unfold GoStrings.Contains, GoStrings.Index.
  destruct (IndexFrom_spec sub s 0) as [[Ho Hi] | [Ho Hi]].
  - split; [auto | intros _; now apply Z.leb_le].
  - rewrite Hi. simpl. split; [discriminate | contradiction].
Qed.

Lemma hasByte_cons (c a : ascii) (s : string) :
  hasByte c (String a s) <-> a = c \/ hasByte c s.
Proof. reflexivity. Qed.

Lemma hasByte_app (c : ascii) (s t : string) :
  hasByte c (s ++ t) <-> hasByte c s \/ hasByte c t.
Proof.
  induction s as [|a s IH]; simpl.
  - unfold hasByte at 2. simpl. tauto.
  - rewrite !hasByte_cons, IH. tauto.
Qed.

Lemma HasPrefix_char (c a : ascii) (s : string) :
  GoStrings.HasPrefix (String a s) (String c EmptyString)
  = if ascii_dec c a then true else false.
Proof.
  unfold GoStrings.HasPrefix. simpl.
  destruct (ascii_dec c a); [now destruct s | reflexivity].
Qed.

(** Searching one byte that does not occur fails. *)
Lemma IndexFrom_char_absent (c : ascii) (s : string) (i : Z) :
  ~ hasByte c s -> GoStrings.IndexFrom i s (String c EmptyString) = -1.
Proof.
  revert i. induction s as [|a s IH]; intros i Hno; [reflexivity|].
  cbn [GoStrings.IndexFrom]. rewrite HasPrefix_char.
  rewrite hasByte_cons in Hno.
  destruct (ascii_dec c a) as [->|Hne]; [tauto|].
  apply IH. tauto.
Qed.

(** Searching one byte finds its first occurrence. *)
Lemma IndexFrom_char_first (c : ascii) (pre post : string) (i : Z) :
  ~ hasByte c pre ->
  GoStrings.IndexFrom i (pre ++ String c post) (String c EmptyString)
  = i + GoStrings.len pre.
Proof.
  unfold GoStrings.len. revert i.
  induction pre as [|a pre IH]; intros i Hno.
  - cbn [append GoStrings.IndexFrom]. rewrite HasPrefix_char.
    destruct (ascii_dec c c); [simpl; lia | congruence].
  - cbn [append GoStrings.IndexFrom]. rewrite HasPrefix_char.
    rewrite hasByte_cons in Hno.
    destruct (ascii_dec c a) as [->|Hne]; [tauto|].
    rewrite IH by tauto. cbn [String.length]. lia.
Qed.

Lemma length_app (s t : string) :
  String.length (s ++ t) = (String.length s + String.length t)%nat.
Proof. induction s as [|a s IH]; simpl; [reflexivity | now rewrite IH]. Qed.

Lemma len_app (s t : string) :
  GoStrings.len (s ++ t) = GoStrings.len s + GoStrings.len t.
Proof. unfold GoStrings.len. rewrite length_app. lia. Qed.

Lemma len_nonneg (s : string) : 0 <= GoStrings.len s.
Proof. unfold GoStrings.len. lia. Qed.

Lemma substring_skip (pre s : string) (n : nat) :
  String.substring (String.length pre) n (pre ++ s) = String.substring 0 n s.
Proof. induction pre as [|a pre IH]; [reflexivity | exact IH]. Qed.

Lemma substring_take (s t : string) :
  String.substring 0 (String.length s) (s ++ t) = s.
Proof. induction s as [|a s IH]; simpl; [now destruct t | now rewrite IH]. Qed.

Lemma substring_all (s : string) :
  String.substring 0 (String.length s) s = s.
Proof. induction s as [|a s IH]; simpl; [reflexivity | now rewrite IH]. Qed.

(** [(pre ++ s)[len(pre):]] is [s]. *)
Lemma slice_from_app (pre s : string) :
  GoStrings.slice_from (pre ++ s) (GoStrings.len pre) = Some s.
Proof.
  unfold GoStrings.slice_from, GoStrings.slice.
  rewrite len_app. pose proof (len_nonneg pre). pose proof (len_nonneg s).
  match goal with |- (if ?b then _ else _) = _ =>
    replace b with true by (symmetry; rewrite !andb_true_iff, !Z.leb_le; lia) end.
  f_equal. unfold GoStrings.len. rewrite Nat2Z.id.
  replace (Z.to_nat _) with (String.length s) by lia.
  rewrite substring_skip. apply substring_all.
Qed.

(** [(pre ++ mid ++ post)[len(pre) : len(pre)+len(mid)]] is [mid]. *)
Lemma slice_app (pre mid post : string) (lo hi : Z) :
  lo = GoStrings.len pre ->
  hi = GoStrings.len pre + GoStrings.len mid ->
  GoStrings.slice (pre ++ mid ++ post) lo hi = Some mid.
Proof.
  intros -> ->. unfold GoStrings.slice.
  rewrite !len_app.
  pose proof (len_nonneg pre). pose proof (len_nonneg mid). pose proof (len_nonneg post).
  match goal with |- (if ?b then _ else _) = _ =>
    replace b with true by (symmetry; rewrite !andb_true_iff, !Z.leb_le; lia) end.
  f_equal. unfold GoStrings.len. rewrite Nat2Z.id.
  replace (Z.to_nat _) with (String.length mid) by lia.
  rewrite substring_skip. apply substring_take.
Qed.

End GoStringsFacts.

(** ** The restartability tests *)

Section Restartability.
Import apiv1 Props.

(** The [switch] of [pod_restart.go] matches its four cases only. *)
Lemma isRestartableReason_exact (reason : string) :
  PodRestart.isRestartableReason reason = true <-> In reason exactReasons.
Proof.
  unfold PodRestart.isRestartableReason, exactReasons. simpl.
  destruct (String.eqb_spec reason "Evicted") as [->|?]; [tauto|].
  destruct (String.eqb_spec reason "NodeShutdown") as [->|?]; [tauto|].
  destruct (String.eqb_spec reason "NodeAffinity") as [->|?]; [tauto|].
  destruct (String.eqb_spec reason "UnexpectedAdmissionError") as [->|?]; [tauto|].
  split; [discriminate|]. intros [?|[?|[?|[?|[]]]]]; congruence.
Qed.

(** The keys of the table. *)
Lemma restartableReasons_lookup (reason : string) :
  notNil (Part004.restartableReasons !! reason) = true <-> In reason tableReasons.
Proof.
  unfold Part004.restartableReasons, tableReasons.
  unfold Part004.RestartableReasonEvicted, Part004.RestartableReasonPreempted,
    Part004.RestartableReasonNodeShutdown, Part004.RestartableReasonNodeAffinity,
    Part004.RestartableReasonUnexpectedAdmissionError.
  rewrite !lookup_insert, lookup_empty. simpl.
  repeat case_decide; subst; simpl; try tauto.
  split; [discriminate|]. intros [?|[?|[?|[?|[?|[]]]]]]; congruence.
Qed.

Lemma disruptionTargetLoop_true (conditions : list PodCondition) :
  Part004.disruptionTargetLoop conditions = true
  <-> Exists disruptionTarget conditions.
Proof.
  induction conditions as [|cond rest IH]; simpl.
  - split; [discriminate | intros H; inversion H].
  - rewrite List.Exists_cons, <- IH. unfold disruptionTarget.
    destruct (String.eqb_spec (Type_ cond) "DisruptionTarget") as [Ht|Ht];
      destruct (String.eqb_spec (CondStatus cond) ConditionTrue) as [Hs|Hs];
      simpl; split; auto; intros [[? ?]|?]; auto; contradiction.
Qed.

(** The table-driven test: the table, four message fragments, or a
    [DisruptionTarget] condition. *)
Lemma isRestartableReason_broad (reason message : string)
    (conditions : list PodCondition) :
  Part004.isRestartableReason reason message conditions = true
  <-> In reason tableReasons
      \/ Exists (fun fragment => occursIn fragment message) messageFragments
      \/ Exists disruptionTarget conditions.
Proof.
  unfold Part004.isRestartableReason, messageFragments.
  rewrite !List.Exists_cons, List.Exists_nil, <- !Contains_spec,
    <- disruptionTargetLoop_true, <- restartableReasons_lookup.
  destruct (notNil (Part004.restartableReasons !! reason)) eqn:Htab; [tauto|].
  destruct (String.eqb_spec reason "Evicted") as [->|_].
  { exfalso. revert Htab. apply not_false_iff_true.
    apply restartableReasons_lookup. simpl. auto. }
  simpl.
  destruct (GoStrings.Contains message "The node had condition:"); [tauto|].
  destruct (GoStrings.Contains message "Preempted"); [tauto|].
  destruct (GoStrings.Contains message "preempted"); [tauto|].
  destruct (GoStrings.Contains message "node is shutting down"); [tauto|].
  simpl. intuition discriminate.
Qed.

End Restartability.

(** ** The classifier *)

Section Classifier.
Import apiv1 Props.

Variable tmpl : option wfv1.Template.
Variable InitContainerName : string.

Lemma analyze_not_failed pod :
  Phase (Status pod) <> PodFailed ->
  PodRestart.analyzePodForRestart pod tmpl
  = {| PodRestart.shouldRestart := false;
       PodRestart.reason := Reason (Status pod);
       PodRestart.neverStarted := false |}.
Proof.
  intros H. unfold PodRestart.analyzePodForRestart.
  apply String.eqb_neq in H. now rewrite H.
Qed.

Lemma analyze_failed pod :
  Phase (Status pod) = PodFailed ->
  PodRestart.analyzePodForRestart pod tmpl
  = {| PodRestart.shouldRestart :=
         PodRestart.mainContainerNeverStarted pod tmpl
         && PodRestart.isRestartableReason (Reason (Status pod));
       PodRestart.reason := Reason (Status pod);
       PodRestart.neverStarted := PodRestart.mainContainerNeverStarted pod tmpl |}.
Proof.
  intros H. unfold PodRestart.analyzePodForRestart.
  rewrite H, String.eqb_refl. simpl.
  now destruct (PodRestart.mainContainerNeverStarted pod tmpl).
Qed.

Lemma Analyze_not_failed pod :
  Phase (Status pod) <> PodFailed ->
  Part004.AnalyzePodForRestart InitContainerName pod tmpl
  = {| Part004.ShouldRestart := false;
       Part004.Reason := Reason (Status pod);
       Part004.Message := Message (Status pod);
       Part004.NeverStarted := false |}.
Proof.
  intros H. unfold Part004.AnalyzePodForRestart.
  apply String.eqb_neq in H. now rewrite H.
Qed.

Lemma Analyze_failed pod :
  Phase (Status pod) = PodFailed ->
  Part004.AnalyzePodForRestart InitContainerName pod tmpl
  = {| Part004.ShouldRestart :=
         Part004.mainContainerNeverStarted InitContainerName pod tmpl
         && Part004.isRestartableReason (Reason (Status pod))
              (Message (Status pod)) (Conditions (Status pod));
       Part004.Reason := Reason (Status pod);
       Part004.Message := Message (Status pod);
       Part004.NeverStarted :=
         Part004.mainContainerNeverStarted InitContainerName pod tmpl |}.
Proof.
  intros H. unfold Part004.AnalyzePodForRestart.
  rewrite H, String.eqb_refl. simpl.
  destruct (Part004.mainContainerNeverStarted InitContainerName pod tmpl);
    [|reflexivity].
  simpl. now destruct (Part004.isRestartableReason _ _ _).
Qed.

Lemma phase_dec pod : Phase (Status pod) = PodFailed \/ Phase (Status pod) <> PodFailed.
Proof. destruct (String.eqb_spec (Phase (Status pod)) PodFailed); auto. Qed.

End Classifier.

(** ** Properties of the classifier *)

Section ClassifierProperties.
Import apiv1 Props Fixtures.

(** C1, as the sources have it. For a pod with phase [Failed] whose main
    container never started: [pod_restart.go] answers [shouldRestart = true]
    exactly when the terminal reason is one of [Evicted], [NodeShutdown],
    [NodeAffinity], [UnexpectedAdmissionError] ([Preempted] is not matched,
    and nothing but the reason is read); the table-driven variant answers
    [ShouldRestart = true] exactly when the reason is a key of its table
    (the four above and [Preempted]), or the message contains one of its
    four fragments, or a [DisruptionTarget] condition has status [True]. *)
Theorem restartable_signals (pod : Pod) (tmpl : option wfv1.Template)
    (InitContainerName : string) :
  Phase (Status pod) = PodFailed ->
  (PodRestart.mainContainerNeverStarted pod tmpl = true ->
     (PodRestart.shouldRestart (PodRestart.analyzePodForRestart pod tmpl) = true
      <-> In (Reason (Status pod)) exactReasons))
  /\ (Part004.mainContainerNeverStarted InitContainerName pod tmpl = true ->
     (Part004.ShouldRestart
        (Part004.AnalyzePodForRestart InitContainerName pod tmpl) = true
      <-> In (Reason (Status pod)) tableReasons
          \/ Exists (fun fragment => occursIn fragment (Message (Status pod)))
                    messageFragments
          \/ Exists disruptionTarget (Conditions (Status pod)))).
Proof.
  intros Hfailed. split; intros Hnever.
  - rewrite (analyze_failed tmpl pod Hfailed). simpl. rewrite Hnever. simpl.
    apply isRestartableReason_exact.
  - rewrite (Analyze_failed tmpl InitContainerName pod Hfailed). simpl.
    rewrite Hnever. simpl. apply isRestartableReason_broad.
Qed.

Lemma restartable_signals_witness :
  PodRestart.shouldRestart
    (PodRestart.analyzePodForRestart evictedBeforeStart None) = true
  /\ Part004.ShouldRestart
       (Part004.AnalyzePodForRestart "init" evictedBeforeStart None) = true.
Proof.
  destruct (restartable_signals evictedBeforeStart None "init" eq_refl)
    as [Hexact Hbroad].
  split.
  - apply Hexact; [reflexivity | simpl; auto].
  - apply Hbroad; [reflexivity | left; simpl; auto].
Defined.

(** C1 fails on both sources: a failed pod that never started and whose
    reason is [Preempted] is not restarted by [pod_restart.go]; a failed
    pod that never started and has no reason, but whose message mentions a
    preemption, is restarted by the table-driven variant. *)
Lemma restartable_signals_counterexample :
  (Phase (Status preemptedUnscheduled) = PodFailed
   /\ Reason (Status preemptedUnscheduled) = "Preempted"
   /\ PodRestart.analyzePodForRestart preemptedUnscheduled None
      = {| PodRestart.shouldRestart := false;
           PodRestart.reason := "Preempted";
           PodRestart.neverStarted := true |})
  /\ (Phase (Status preemptedInMessage) = PodFailed
      /\ Reason (Status preemptedInMessage) = ""
      /\ Part004.AnalyzePodForRestart "init" preemptedInMessage None
         = {| Part004.ShouldRestart := true;
              Part004.Reason := "";
              Part004.Message := "Pod was preempted by higher priority pod";
              Part004.NeverStarted := true |}).
Proof. repeat split; vm_compute; reflexivity. Qed.

(** C2, as the sources have it. When some main container shows it has
    run (state [Running], last-termination state [Running], or state
    [Terminated] with a non-zero [StartedAt]), [pod_restart.go] answers
    [neverStarted = false] and [shouldRestart = false]; the variant with
    the init-container gate gives the same answer provided no status of
    the init container is [Waiting] without a run or a termination. *)
Theorem ran_main_container_blocks_restart (pod : Pod)
    (tmpl : option wfv1.Template) (InitContainerName : string) :
  someMainContainerRan pod tmpl ->
  (PodRestart.neverStarted (PodRestart.analyzePodForRestart pod tmpl) = false
   /\ PodRestart.shouldRestart (PodRestart.analyzePodForRestart pod tmpl) = false)
  /\ (Forall (fun status => ~ initWaiting InitContainerName status)
             (InitContainerStatuses (Status pod)) ->
      Part004.NeverStarted
        (Part004.AnalyzePodForRestart InitContainerName pod tmpl) = false
      /\ Part004.ShouldRestart
           (Part004.AnalyzePodForRestart InitContainerName pod tmpl) = false).
Proof.
  intros Hran. split.
  - apply mainContainerNeverStarted_false in Hran.
    destruct (phase_dec pod) as [Hf | Hf].
    + rewrite (analyze_failed tmpl pod Hf). simpl. now rewrite Hran.
    + now rewrite (analyze_not_failed tmpl pod Hf).
  - intros Hgate.
    assert (Part004.mainContainerNeverStarted InitContainerName pod tmpl = false)
      as Hnever by now apply Part004_mainContainerNeverStarted_false.
    destruct (phase_dec pod) as [Hf | Hf].
    + rewrite (Analyze_failed tmpl InitContainerName pod Hf). simpl.
      now rewrite Hnever.
    + now rewrite (Analyze_not_failed tmpl InitContainerName pod Hf).
Qed.

Lemma evictedAfterRun_ran : someMainContainerRan evictedAfterRun None.
Proof.
  exists (container "main" (terminated 137 "" now)).
  split; [now left|]. split; [reflexivity|].
  right. right. eexists. split; reflexivity.
Defined.

Lemma ran_main_container_blocks_restart_witness :
  (PodRestart.neverStarted
     (PodRestart.analyzePodForRestart evictedAfterRun None) = false
   /\ PodRestart.shouldRestart
        (PodRestart.analyzePodForRestart evictedAfterRun None) = false)
  /\ Part004.NeverStarted
       (Part004.AnalyzePodForRestart "init" evictedAfterRun None) = false
  /\ Part004.ShouldRestart
       (Part004.AnalyzePodForRestart "init" evictedAfterRun None) = false.
Proof.
  destruct (ran_main_container_blocks_restart evictedAfterRun None "init"
              evictedAfterRun_ran) as [Hexact Hgate].
  split; [exact Hexact|]. apply Hgate. simpl. constructor.
Defined.

(** C2 fails on the variant with the init-container gate: the main
    container of this failed pod is running, the status of its init
    container is [Waiting], and the classifier answers never started and
    restart. *)
Lemma ran_main_container_counterexample :
  someMainContainerRan runningBehindWaitingInit None
  /\ Part004.NeverStarted
       (Part004.AnalyzePodForRestart "init" runningBehindWaitingInit None) = true
  /\ Part004.ShouldRestart
       (Part004.AnalyzePodForRestart "init" runningBehindWaitingInit None) = true.
Proof.
  split; [|split; vm_compute; reflexivity].
  exists (container "main" (running now)).
  split; [now left|]. split; [reflexivity|]. left. discriminate.
Qed.

(** The gate fires for every name the init container may have: a
    [Waiting] init status masks whatever the main containers did. *)
Lemma init_gate_masks_main (pod : Pod) (tmpl : option wfv1.Template)
    (InitContainerName : string) :
  Exists (initWaiting InitContainerName) (InitContainerStatuses (Status pod)) ->
  Part004.mainContainerNeverStarted InitContainerName pod tmpl = true.
Proof.
  intros Hgate. apply initContainersLoop_true in Hgate.
  unfold Part004.mainContainerNeverStarted. rewrite Hgate.
  now destruct (Nat.eqb _ _).
Qed.

(** C3. Whenever the classifier answers restart, it also answers never
    started, in both sources. *)
Theorem restart_implies_never_started (pod : Pod)
    (tmpl : option wfv1.Template) (InitContainerName : string) :
  (PodRestart.shouldRestart (PodRestart.analyzePodForRestart pod tmpl) = true ->
   PodRestart.neverStarted (PodRestart.analyzePodForRestart pod tmpl) = true)
  /\ (Part004.ShouldRestart
        (Part004.AnalyzePodForRestart InitContainerName pod tmpl) = true ->
      Part004.NeverStarted
        (Part004.AnalyzePodForRestart InitContainerName pod tmpl) = true).
Proof.
  split.
  - destruct (phase_dec pod) as [Hf | Hf].
    + rewrite (analyze_failed tmpl pod Hf). simpl.
      intros H. now apply andb_true_iff in H as [? _].
    + rewrite (analyze_not_failed tmpl pod Hf). simpl. discriminate.
  - destruct (phase_dec pod) as [Hf | Hf].
    + rewrite (Analyze_failed tmpl InitContainerName pod Hf). simpl.
      intros H. now apply andb_true_iff in H as [? _].
    + rewrite (Analyze_not_failed tmpl InitContainerName pod Hf). simpl.
      discriminate.
Qed.

Lemma restart_implies_never_started_witness :
  PodRestart.neverStarted
    (PodRestart.analyzePodForRestart evictedBeforeStart None) = true
  /\ Part004.NeverStarted
       (Part004.AnalyzePodForRestart "init" evictedBeforeStart None) = true.
Proof.
  destruct (restart_implies_never_started evictedBeforeStart None "init")
    as [Hexact Hbroad].
  split; [apply Hexact | apply Hbroad]; vm_compute; reflexivity.
Defined.

(** C4. A pod whose phase is not [Failed] is neither restarted nor
    reported as never started, whatever its template, container
    statuses, reason and message; both sources. *)
Theorem not_failed_is_no_candidate (pod : Pod)
    (tmpl : option wfv1.Template) (InitContainerName : string) :
  Phase (Status pod) <> PodFailed ->
  (PodRestart.shouldRestart (PodRestart.analyzePodForRestart pod tmpl) = false
   /\ PodRestart.neverStarted (PodRestart.analyzePodForRestart pod tmpl) = false)
  /\ (Part004.ShouldRestart
        (Part004.AnalyzePodForRestart InitContainerName pod tmpl) = false
      /\ Part004.NeverStarted
           (Part004.AnalyzePodForRestart InitContainerName pod tmpl) = false).
Proof.
  intros Hf.
  rewrite (analyze_not_failed tmpl pod Hf),
    (Analyze_not_failed tmpl InitContainerName pod Hf).
  simpl. auto.
Qed.

Lemma not_failed_is_no_candidate_witness :
  (PodRestart.shouldRestart
     (PodRestart.analyzePodForRestart evictedUnknownPhase None) = false
   /\ PodRestart.neverStarted
        (PodRestart.analyzePodForRestart evictedUnknownPhase None) = false)
  /\ (Part004.ShouldRestart
        (Part004.AnalyzePodForRestart "init" evictedUnknownPhase None) = false
      /\ Part004.NeverStarted
           (Part004.AnalyzePodForRestart "init" evictedUnknownPhase None) = false).
Proof.
  apply (not_failed_is_no_candidate evictedUnknownPhase None "init").
  vm_compute. discriminate.
Defined.

(** C9. A failed pod with an empty container-status list is classified
    as never started; both sources. *)
Theorem no_container_status_never_started (pod : Pod)
    (tmpl : option wfv1.Template) (InitContainerName : string) :
  Phase (Status pod) = PodFailed ->
  ContainerStatuses (Status pod) = [] ->
  PodRestart.neverStarted (PodRestart.analyzePodForRestart pod tmpl) = true
  /\ Part004.NeverStarted
       (Part004.AnalyzePodForRestart InitContainerName pod tmpl) = true.
Proof.
  intros Hf Hempty.
  rewrite (analyze_failed tmpl pod Hf),
    (Analyze_failed tmpl InitContainerName pod Hf). simpl.
  unfold PodRestart.mainContainerNeverStarted, Part004.mainContainerNeverStarted.
  rewrite Hempty. simpl. split; [reflexivity|].
  destruct (Nat.eqb _ _); [reflexivity|].
  now destruct (Part004.initContainersLoop _ _).
Qed.

Lemma no_container_status_never_started_witness :
  PodRestart.neverStarted
    (PodRestart.analyzePodForRestart evictedUnscheduled None) = true
  /\ Part004.NeverStarted
       (Part004.AnalyzePodForRestart "init" evictedUnscheduled None) = true.
Proof.
  apply (no_container_status_never_started evictedUnscheduled None "init");
    reflexivity.
Defined.

(** C10. When the container-status list is not empty but none of its
    names is a main container's, [mainContainerNeverStarted] returns
    [true], even if the listed containers ran; both sources. *)
Theorem only_other_containers_never_started (pod : Pod)
    (tmpl : option wfv1.Template) (InitContainerName : string) :
  ContainerStatuses (Status pod) <> [] ->
  Forall (fun status => PodRestart.isMainContainer tmpl (Name status) = false)
         (ContainerStatuses (Status pod)) ->
  PodRestart.mainContainerNeverStarted pod tmpl = true
  /\ Part004.mainContainerNeverStarted InitContainerName pod tmpl = true.
Proof.
  intros _ Hother. apply mainContainersLoop_no_main in Hother.
  split.
  - now rewrite mainContainerNeverStarted_loop.
  - unfold Part004.mainContainerNeverStarted. rewrite Hother.
    destruct (Nat.eqb _ _); [reflexivity|].
    now destruct (Part004.initContainersLoop _ _).
Qed.

(** The only listed container is a sidecar, and it is running. *)
Lemma only_other_containers_never_started_witness :
  showsRun (container "sidecar" (running now))
  /\ PodRestart.mainContainerNeverStarted sidecarOnly None = true
  /\ Part004.mainContainerNeverStarted "init" sidecarOnly None = true.
Proof.
  split; [left; discriminate|].
  apply (only_other_containers_never_started sidecarOnly None "init").
  - discriminate.
  - repeat constructor.
Defined.

End ClassifierProperties.

(** ** The eviction-reason extractor *)

Section Extractor.
Import apiv1 Props Fixtures.

Lemma append_assoc (s t u : string) : (s ++ t) ++ u = s ++ t ++ u.
Proof. induction s as [|a s IH]; simpl; [reflexivity | now rewrite IH]. Qed.

(** Either the byte does not occur, or the string splits at its first
    occurrence. *)
Lemma first_byte (c : ascii) (s : string) :
  ~ hasByte c s
  \/ exists pre post, s = pre ++ String c post /\ ~ hasByte c pre.
Proof.
  induction s as [|a s IH].
  - left. intros [].
  - destruct (ascii_dec a c) as [->|Hne].
    + right. exists EmptyString, s. split; [reflexivity | intros []].
    + destruct IH as [Hno | (pre & post & -> & Hpre)].
      * left. rewrite hasByte_cons. tauto.
      * right. exists (String a pre), post. split; [reflexivity|].
        rewrite hasByte_cons. tauto.
Qed.

Variable pod : Pod.

Lemma getEvictionReason_other :
  Reason (Status pod) <> "Evicted" ->
  PodRestart.getEvictionReason pod = Some EmptyString.
Proof.
  intros H. unfold PodRestart.getEvictionReason.
  apply String.eqb_neq in H. now rewrite H.
Qed.

Hypothesis Hevicted : Reason (Status pod) = "Evicted".

(** No opening bracket: the reason itself. *)
Lemma getEvictionReason_no_open :
  ~ hasByte "[" (Message (Status pod)) ->
  PodRestart.getEvictionReason pod = Some "Evicted".
Proof.
  intros Hno. unfold PodRestart.getEvictionReason, GoStrings.Index.
  rewrite Hevicted. simpl.
  now rewrite (IndexFrom_char_absent "[" _ 0 Hno).
Qed.

(** An opening bracket with no closing bracket after it: the reason
    itself. *)
Lemma getEvictionReason_no_close (pre rest : string) :
  Message (Status pod) = pre ++ "[" ++ rest ->
  ~ hasByte "[" pre ->
  ~ hasByte "]" rest ->
  PodRestart.getEvictionReason pod = Some "Evicted".
Proof.
  intros Hmsg Hpre Hrest.
  unfold PodRestart.getEvictionReason, GoStrings.Index.
  rewrite Hevicted, Hmsg. simpl String.eqb. cbn [negb].
  change (pre ++ "[" ++ rest) with (pre ++ String "[" rest).
  rewrite (IndexFrom_char_first "[" pre rest 0 Hpre), Z.add_0_l.
  pose proof (len_nonneg pre).
  replace (GoStrings.len pre =? -1) with false by (symmetry; apply Z.eqb_neq; lia).
  cbn [negb]. rewrite slice_from_app.
  rewrite IndexFrom_char_absent; [reflexivity|].
  rewrite hasByte_cons. intros [? | ?]; [discriminate | contradiction].
Qed.

(** The text between the first opening bracket and the next closing
    bracket. *)
Lemma getEvictionReason_bracketed (pre X post : string) :
  Message (Status pod) = pre ++ "[" ++ X ++ "]" ++ post ->
  ~ hasByte "[" pre ->
  ~ hasByte "]" X ->
  PodRestart.getEvictionReason pod = Some X.
Proof.
  intros Hmsg Hpre HX.
  unfold PodRestart.getEvictionReason, GoStrings.Index.
  rewrite Hevicted, Hmsg. simpl String.eqb. cbn [negb].
  change (pre ++ "[" ++ X ++ "]" ++ post)
    with (pre ++ String "[" (X ++ "]" ++ post)).
  rewrite (IndexFrom_char_first "[" pre _ 0 Hpre), Z.add_0_l.
  pose proof (len_nonneg pre). pose proof (len_nonneg X).
  replace (GoStrings.len pre =? -1) with false by (symmetry; apply Z.eqb_neq; lia).
  cbn [negb]. rewrite slice_from_app.
  change (String "[" (X ++ "]" ++ post)) with (String "[" X ++ String "]" post).
  rewrite (IndexFrom_char_first "]" (String "[" X) post 0), Z.add_0_l.
  2:{ rewrite hasByte_cons. intros [? | ?]; [discriminate | contradiction]. }
  change (GoStrings.len (String "[" X)) with (Z.of_nat (S (String.length X))).
  replace (GoStrings.len pre + Z.of_nat (S (String.length X)) =? -1) with false
    by (symmetry; apply Z.eqb_neq; lia).
  cbn [negb].
  change (pre ++ String "[" X ++ String "]" post)
    with (pre ++ "[" ++ X ++ String "]" post).
  rewrite <- (append_assoc pre "[" (X ++ String "]" post)).
  apply slice_app.
  - rewrite len_app. reflexivity.
  - rewrite len_app. unfold GoStrings.len. simpl String.length. lia.
Qed.

End Extractor.

Section ExtractorProperties.
Import apiv1 Props Fixtures.

(** The slice expressions of the extractor never panic. *)
Lemma getEvictionReason_total (pod : Pod) :
  exists r, PodRestart.getEvictionReason pod = Some r.
Proof.
  destruct (String.eqb_spec (Reason (Status pod)) "Evicted") as [He | He].
  - destruct (first_byte "[" (Message (Status pod)))
      as [Hno | (pre & tail & Hmsg & Hpre)].
    + eexists. now apply getEvictionReason_no_open.
    + destruct (first_byte "]" tail) as [Hno | (X & post & -> & HX)].
      * eexists. now apply (getEvictionReason_no_close pod He pre tail).
      * exists X. now apply (getEvictionReason_bracketed pod He pre X post).
  - eexists. now apply getEvictionReason_other.
Qed.

(** C5. Both sources hold the same extractor. For a pod whose reason is
    [Evicted] it returns the text between the first opening bracket of
    the message and the next closing bracket; when the message has no
    opening bracket, or no closing bracket after the first opening one,
    it returns the reason, [Evicted]; for any other reason it returns
    the empty string. *)
Theorem eviction_reason_extraction (pod : Pod) :
  Part004.GetEvictionReason pod = PodRestart.getEvictionReason pod
  /\ (Reason (Status pod) = "Evicted" ->
      (forall pre X post : string,
          Message (Status pod) = pre ++ "[" ++ X ++ "]" ++ post ->
          ~ hasByte "[" pre -> ~ hasByte "]" X ->
          PodRestart.getEvictionReason pod = Some X)
      /\ (~ hasByte "[" (Message (Status pod)) ->
          PodRestart.getEvictionReason pod = Some "Evicted")
      /\ (forall pre rest : string,
             Message (Status pod) = pre ++ "[" ++ rest ->
             ~ hasByte "[" pre -> ~ hasByte "]" rest ->
             PodRestart.getEvictionReason pod = Some "Evicted"))
  /\ (Reason (Status pod) <> "Evicted" ->
      PodRestart.getEvictionReason pod = Some EmptyString).
Proof.
  split; [reflexivity|]. split.
  - intros He. split; [|split].
    + intros pre X post. now apply getEvictionReason_bracketed.
    + now apply getEvictionReason_no_open.
    + intros pre rest. now apply getEvictionReason_no_close.
  - apply getEvictionReason_other.
Qed.

Lemma no_byte_decide (c : ascii) (s : string) :
  existsb (Ascii.eqb c) (list_ascii_of_string s) = false -> ~ hasByte c s.
Proof.
  intros H Hin. apply not_true_iff_false in H. apply H.
  apply existsb_exists. exists c. split; [exact Hin | apply Ascii.eqb_refl].
Qed.

Lemma eviction_reason_extraction_witness :
  PodRestart.getEvictionReason evictedBeforeStart = Some "DiskPressure"
  /\ PodRestart.getEvictionReason evictedNoBrackets = Some "Evicted"
  /\ PodRestart.getEvictionReason notEvicted = Some EmptyString.
Proof.
  split; [|split].
  - destruct (eviction_reason_extraction evictedBeforeStart) as (_ & H & _).
    destruct (H eq_refl) as (Hbr & _).
    apply (Hbr "The node had condition: " "DiskPressure" EmptyString);
      [reflexivity | apply no_byte_decide; reflexivity
                   | apply no_byte_decide; reflexivity].
  - destruct (eviction_reason_extraction evictedNoBrackets) as (_ & H & _).
    destruct (H eq_refl) as (_ & Hno & _).
    apply Hno. apply no_byte_decide. reflexivity.
  - destruct (eviction_reason_extraction notEvicted) as (_ & _ & H).
    apply H. vm_compute. discriminate.
Defined.

End ExtractorProperties.

(** ** Facts about the decimal conversions *)

Section GoStrconvFacts.
Import Props.

Lemma digitVal_Some (c : ascii) (d : Z) :
  GoStrconv.digitVal c = Some d <-> isDigit c /\ d = digitOf c.
Proof.
  unfold GoStrconv.digitVal, isDigit, digitOf.
  destruct (Z.leb_spec 48 (Z.of_N (N_of_ascii c)));
    destruct (Z.leb_spec (Z.of_N (N_of_ascii c)) 57); simpl.
  - split; [intros [= <-]; split; [lia | reflexivity] | now intros [_ ->]].
  - split; [discriminate | intros [? _]; lia].
  - split; [discriminate | intros [? _]; lia].
  - split; [discriminate | intros [? _]; lia].
Qed.

(** The digit loop accepts runs of digits only and accumulates their
    value. *)
Lemma parseDigits_spec (s : string) (acc v : Z) :
  GoStrconv.parseDigits acc s = Some v
  <-> allDigits s
      /\ v = fold_left (fun a c => 10 * a + digitOf c) (list_ascii_of_string s) acc.
Proof.
  unfold allDigits. revert acc.
  induction s as [|c s IH]; intros acc; simpl.
  - split; [intros [= <-]; split; [constructor | reflexivity]
           | intros [_ ->]; reflexivity].
  - destruct (GoStrconv.digitVal c) as [d|] eqn:Hd.
    + apply digitVal_Some in Hd as [Hc ->]. rewrite IH.
      replace (acc * 10 + digitOf c) with (10 * acc + digitOf c) by lia.
      split; intros [Hall Hv]; (split; [|exact Hv]).
      * now constructor.
      * now inversion Hall.
    + split; [discriminate|]. intros [Hall _]. inversion Hall as [|? ? Hc _]; subst.
      assert (GoStrconv.digitVal c = Some (digitOf c)) as E
        by (apply digitVal_Some; auto).
      congruence.
Qed.

Lemma ParseUint_spec (s : string) (v : Z) :
  GoStrconv.ParseUint s = Some v
  <-> s <> EmptyString /\ allDigits s /\ v = decimalValue s.
Proof.
  unfold GoStrconv.ParseUint, decimalValue. destruct s as [|c s].
  - split; [discriminate | intros [H _]; congruence].
  - rewrite parseDigits_spec. split.
    + intros [? ?]. repeat split; auto; discriminate.
    + intros (_ & ? & ?). auto.
Qed.

Lemma decimalValue_nonneg_from (l : list ascii) (acc : Z) :
  Forall isDigit l -> 0 <= acc ->
  0 <= fold_left (fun a c => 10 * a + digitOf c) l acc.
Proof.
  revert acc. induction l as [|c l IH]; intros acc Hall Hacc; simpl; [exact Hacc|].
  inversion Hall as [|? ? Hc Hl]; subst. apply IH; [exact Hl|].
  unfold isDigit, digitOf in *. lia.
Qed.

Lemma decimalValue_nonneg (s : string) : allDigits s -> 0 <= decimalValue s.
Proof. intros H. apply decimalValue_nonneg_from; [exact H | lia]. Qed.

Lemma digit_not_sign (c : ascii) (s : string) :
  allDigits (String c s) -> Ascii.eqb c "+" = false /\ Ascii.eqb c "-" = false.
Proof.
  intros H. inversion H as [|? ? Hc _]; subst. unfold isDigit in Hc.
  split; apply Ascii.eqb_neq; intros ->; vm_compute in Hc; destruct Hc as [H1 H2];
    (now apply H1 || now apply H2).
Qed.

(** [ParseInt(s, 10, 32)] succeeds exactly on the decimal numerals of
    the 32-bit integers, and returns the integer. *)
Lemma ParseInt_spec (s : string) (v : Z) :
  GoStrconv.ParseInt s 32 = Some v
  <-> signedDecimal s v /\ - 2 ^ 31 <= v < 2 ^ 31.
Proof.
  unfold GoStrconv.ParseInt. change (2 ^ (32 - 1)) with (2 ^ 31).
  destruct s as [|c s].
  { split; [discriminate|]. intros [H _]. inversion H; subst; congruence. }
  destruct (Ascii.eqb_spec c "-") as [->|Hminus].
  - (* a minus sign *)
    change (Ascii.eqb "-" "+") with false. cbn [orb negb andb].
    destruct (GoStrconv.ParseUint s) as [un|] eqn:Hun.
    + apply ParseUint_spec in Hun as (Hne & Hall & ->).
      pose proof (decimalValue_nonneg s Hall) as Hpos.
      destruct (2 ^ 31 <? decimalValue s) eqn:Hcut;
        rewrite ?Z.ltb_lt, ?Z.ltb_ge in Hcut.
      * split; [discriminate|]. intros [H Hr].
        inversion H as [ds ? Hd Heq | | ds ? Hd Heq]; subst.
        -- apply digit_not_sign in Hd as [_ Hd]. discriminate.
        -- lia.
      * split.
        -- intros [= <-]. split; [now constructor | lia].
        -- intros [H Hr]. inversion H as [ds ? Hd Heq | | ds ? Hd Heq]; subst.
           ++ apply digit_not_sign in Hd as [_ Hd]. discriminate.
           ++ reflexivity.
    + split; [discriminate|]. intros [H _].
      inversion H as [ds Hne Hd Heq | | ds Hne Hd Heq]; subst.
      * apply digit_not_sign in Hd as [_ Hd]. discriminate.
      * assert (GoStrconv.ParseUint s = Some (decimalValue s)) as E
          by (apply ParseUint_spec; auto).
        congruence.
  - rewrite orb_false_r. cbn [negb andb].
    destruct (Ascii.eqb_spec c "+") as [->|Hplus].
    + (* a plus sign *)
      destruct (GoStrconv.ParseUint s) as [un|] eqn:Hun.
      * apply ParseUint_spec in Hun as (Hne & Hall & ->).
        pose proof (decimalValue_nonneg s Hall) as Hpos.
        destruct (2 ^ 31 <=? decimalValue s) eqn:Hcut;
          rewrite ?Z.leb_le, ?Z.leb_gt in Hcut.
        -- split; [discriminate|]. intros [H Hr].
           inversion H as [ds ? Hd Heq | ds ? Hd Heq | ]; subst.
           ++ apply digit_not_sign in Hd as [Hd _]. discriminate.
           ++ lia.
        -- split.
           ++ intros [= <-]. split; [now constructor | lia].
           ++ intros [H Hr]. inversion H as [ds ? Hd Heq | ds ? Hd Heq | ]; subst.
              ** apply digit_not_sign in Hd as [Hd _]. discriminate.
              ** reflexivity.
      * split; [discriminate|]. intros [H _].
        inversion H as [ds Hne Hd Heq | ds Hne Hd Heq | ]; subst.
        -- apply digit_not_sign in Hd as [Hd _]. discriminate.
        -- assert (GoStrconv.ParseUint s = Some (decimalValue s)) as E
             by (apply ParseUint_spec; auto).
           congruence.
    + (* no sign *)
      destruct (GoStrconv.ParseUint (String c s)) as [un|] eqn:Hun.
      * apply ParseUint_spec in Hun as (Hne & Hall & ->).
        pose proof (decimalValue_nonneg _ Hall) as Hpos.
        destruct (2 ^ 31 <=? decimalValue (String c s)) eqn:Hcut;
          rewrite ?Z.leb_le, ?Z.leb_gt in Hcut.
        -- split; [discriminate|]. intros [H Hr].
           inversion H; subst; [lia | congruence | congruence].
        -- split.
           ++ intros [= <-]. split; [now constructor | lia].
           ++ intros [H Hr]. inversion H; subst; [reflexivity | congruence | congruence].
      * split; [discriminate|]. intros [H _].
        inversion H as [ds Hne Hd Heq | | ]; subst; try congruence.
        assert (GoStrconv.ParseUint (String c s) = Some (decimalValue (String c s)))
          as E by (apply ParseUint_spec; auto).
        congruence.
Qed.

(** A string is rejected exactly when it is no such numeral. *)
Lemma ParseInt_None (s : string) :
  GoStrconv.ParseInt s 32 = None <-> ~ decimalInt32 s.
Proof.
  unfold decimalInt32. split.
  - intros Hnone (v & Hv). apply ParseInt_spec in Hv. congruence.
  - intros Hno. destruct (GoStrconv.ParseInt s 32) as [v|] eqn:E; [|reflexivity].
    exfalso. apply Hno. exists v. now apply ParseInt_spec.
Qed.

End GoStrconvFacts.

Section FormatFacts.
Import Props.

Lemma digitChar_spec (d : Z) :
  0 <= d < 10 ->
  isDigit (GoStrconv.digitChar d) /\ digitOf (GoStrconv.digitChar d) = d.
Proof.
  intros H.
  assert (d = 0 \/ d = 1 \/ d = 2 \/ d = 3 \/ d = 4 \/ d = 5 \/ d = 6 \/ d = 7
          \/ d = 8 \/ d = 9) as Hd by lia.
  unfold isDigit, digitOf.
  repeat (destruct Hd as [-> | Hd]; [vm_compute; intuition discriminate|]).
  subst. vm_compute. intuition discriminate.
Qed.

Lemma list_ascii_of_string_app (s t : string) :
  list_ascii_of_string (s ++ t)
  = (list_ascii_of_string s ++ list_ascii_of_string t)%list.
Proof. induction s as [|a s IH]; simpl; [reflexivity | now rewrite IH]. Qed.

Lemma allDigits_snoc (s : string) (c : ascii) :
  allDigits s -> isDigit c -> allDigits (s ++ String c EmptyString).
Proof.
  unfold allDigits. intros Hs Hc. rewrite list_ascii_of_string_app.
  apply Forall_app. split; [exact Hs | now constructor].
Qed.

Lemma decimalValue_snoc (s : string) (c : ascii) :
  decimalValue (s ++ String c EmptyString) = 10 * decimalValue s + digitOf c.
Proof.
  unfold decimalValue. rewrite list_ascii_of_string_app, fold_left_app.
  reflexivity.
Qed.

(** With enough fuel the digit loop of [formatBits] puts the numeral of
    [u] in front of the accumulator. *)
Lemma formatBits_spec (fuel : nat) (u : Z) (acc : string) :
  (0 < fuel)%nat -> 0 <= u < 10 ^ Z.of_nat fuel ->
  exists ds, GoStrconv.formatBits fuel u acc = ds ++ acc
             /\ ds <> EmptyString /\ allDigits ds /\ decimalValue ds = u.
Proof.
  revert u acc. induction fuel as [|fuel IH]; intros u acc Hfuel Hu; [lia|].
  cbn [GoStrconv.formatBits]. destruct (Z.ltb_spec u 10) as [Hlt | Hge].
  - exists (String (GoStrconv.digitChar u) EmptyString).
    destruct (digitChar_spec u) as [Hd Hv]; [lia|].
    split; [reflexivity|]. split; [discriminate|]. split.
    + unfold allDigits. simpl. constructor; [exact Hd | constructor].
    + unfold decimalValue. simpl. lia.
  - assert (0 <= u / 10 < 10 ^ Z.of_nat fuel) as Hdiv.
    { split; [apply Z.div_pos; lia|].
      apply Z.div_lt_upper_bound; [lia|].
      rewrite Nat2Z.inj_succ, Z.pow_succ_r in Hu by lia. lia. }
    assert (1 <= u / 10) as Hone by (apply Z.div_le_lower_bound; lia).
    assert (0 < fuel)%nat as Hfuel'.
    { destruct fuel; [simpl in Hdiv; lia | lia]. }
    destruct (IH (u / 10) (String (GoStrconv.digitChar (u mod 10)) acc) Hfuel' Hdiv)
      as (ds & -> & Hne & Hall & Hval).
    destruct (digitChar_spec (u mod 10)) as [Hd Hv].
    { apply Z.mod_pos_bound. lia. }
    exists (ds ++ String (GoStrconv.digitChar (u mod 10)) EmptyString).
    split; [now rewrite append_assoc|]. split.
    { destruct ds; [congruence | discriminate]. }
    split; [now apply allDigits_snoc|].
    rewrite decimalValue_snoc, Hval, Hv.
    pose proof (Z.div_mod u 10). lia.
Qed.

(** [FormatInt] writes a decimal numeral of its argument. *)
Lemma FormatInt_spec (i : Z) :
  - 2 ^ 63 <= i < 2 ^ 63 -> signedDecimal (GoStrconv.FormatInt i) i.
Proof.
  intros Hi. unfold GoStrconv.FormatInt.
  assert (2 ^ 63 < 10 ^ Z.of_nat GoStrconv.maxDigits) as Hbig by reflexivity.
  assert (0 < GoStrconv.maxDigits)%nat as Hfuel by (unfold GoStrconv.maxDigits; lia).
  destruct (Z.ltb_spec i 0) as [Hneg | Hpos].
  - destruct (formatBits_spec GoStrconv.maxDigits (- i) EmptyString Hfuel)
      as (ds & -> & Hne & Hall & Hval); [lia|].
    replace (ds ++ EmptyString) with ds
      by (clear; induction ds; simpl; congruence).
    assert (i = - decimalValue ds) as Hi' by lia.
    rewrite Hi' at 1. now constructor.
  - destruct (formatBits_spec GoStrconv.maxDigits i EmptyString Hfuel)
      as (ds & -> & Hne & Hall & Hval); [lia|].
    replace (ds ++ EmptyString) with ds
      by (clear; induction ds; simpl; congruence).
    rewrite <- Hval at 1. now constructor.
Qed.

Lemma signedDecimal_nonempty (s : string) (v : Z) :
  signedDecimal s v -> s <> EmptyString.
Proof. intros H. inversion H; subst; auto; discriminate. Qed.

Lemma FormatInt_nonempty (i : Z) :
  - 2 ^ 63 <= i < 2 ^ 63 -> GoStrconv.FormatInt i <> EmptyString.
Proof. intros H. eapply signedDecimal_nonempty, FormatInt_spec, H. Qed.

(** What [FormatInt] writes for an [int32], [ParseInt] reads back. *)
Lemma ParseInt_FormatInt (i : Z) :
  - 2 ^ 31 <= i < 2 ^ 31 ->
  GoStrconv.ParseInt (GoStrconv.FormatInt i) 32 = Some i.
Proof.
  intros H. apply ParseInt_spec. split; [|exact H].
  apply FormatInt_spec. lia.
Qed.

Lemma wrap_in_range (z : Z) : - 2 ^ 31 <= Int32.wrap z < 2 ^ 31.
Proof.
  unfold Int32.wrap. pose proof (Z.mod_pos_bound (z + 2 ^ 31) (2 ^ 32)). lia.
Qed.

Lemma wrap_id (z : Z) : - 2 ^ 31 <= z < 2 ^ 31 -> Int32.wrap z = z.
Proof.
  intros H. unfold Int32.wrap. rewrite Z.mod_small; lia.
Qed.

End FormatFacts.

(** ** The accountant *)

Section Accountant.
Import Props Fixtures.

Variable wf : wfv1.Workflow.
Variable nodeID : string.

(** The exported and the unexported accountant are the same functions. *)
Lemma exported_accountant :
  Part004.GetFailedPodRestartCount wf nodeID
  = Part003.getFailedPodRestartCount wf nodeID
  /\ (forall count, Part004.SetFailedPodRestartCount wf nodeID count
                    = Part003.setFailedPodRestartCount wf nodeID count)
  /\ Part004.IncrementFailedPodRestartCount wf nodeID
     = Part003.incrementFailedPodRestartCount wf nodeID.
Proof. repeat split. Qed.

(** [get] only reads the workflow. *)
Lemma get_frame : snd (Part003.getFailedPodRestartCount wf nodeID) = wf.
Proof.
  unfold Part003.getFailedPodRestartCount.
  destruct (wfv1.Annotations wf) as [annotations|]; [|reflexivity].
  destruct (annotations !! _) as [countStr|]; [|reflexivity].
  now destruct (GoStrconv.ParseInt countStr 32).
Qed.

(** [get] in terms of the stored annotation. *)
Lemma get_stored :
  fst (Part003.getFailedPodRestartCount wf nodeID)
  = match storedCount wf nodeID with
    | Some countStr => default 0 (GoStrconv.ParseInt countStr 32)
    | None => 0
    end.
Proof.
  unfold Part003.getFailedPodRestartCount, storedCount.
  destruct (wfv1.Annotations wf) as [annotations|]; [|reflexivity].
  destruct (annotations !! _) as [countStr|]; [|reflexivity].
  destruct (GoStrconv.ParseInt countStr 32) as [count|] eqn:E; [|reflexivity].
  simpl. apply wrap_id. now apply ParseInt_spec in E.
Qed.

Variable count : Z.
Hypothesis count_int32 : - 2 ^ 31 <= count < 2 ^ 31.

(** After [set] the annotation holds the decimal numeral of the count. *)
Lemma set_stored :
  storedCount (snd (Part003.setFailedPodRestartCount wf nodeID count)) nodeID
  = Some (GoStrconv.FormatInt count).
Proof.
  unfold Part003.setFailedPodRestartCount, storedCount.
  set (annotations := match wfv1.Annotations wf with
                      | Some annotations => annotations
                      | None => ∅
                      end).
  set (key := common.AnnotationKeyFailedPodRestartCountPrefix ++ nodeID).
  destruct (String.eqb_spec (default EmptyString (annotations !! key))
              (GoStrconv.FormatInt count)) as [Heq | Hne]; simpl.
  - destruct (annotations !! key) as [v|]; simpl in Heq; [now subst|].
    exfalso. symmetry in Heq. revert Heq. apply FormatInt_nonempty. lia.
  - apply lookup_insert_eq.
Qed.

(** [set] reports a change exactly when the stored string differs. *)
Lemma set_changed :
  fst (Part003.setFailedPodRestartCount wf nodeID count)
  = negb (String.eqb (default EmptyString (storedCount wf nodeID))
                     (GoStrconv.FormatInt count)).
Proof.
  unfold Part003.setFailedPodRestartCount, storedCount.
  destruct (wfv1.Annotations wf) as [annotations|].
  - now destruct (negb _).
  - rewrite lookup_empty. now destruct (negb _).
Qed.

(** [set] creates the map of a workflow that has none. *)
Lemma set_creates_map :
  wfv1.Annotations wf = None ->
  Part003.setFailedPodRestartCount wf nodeID count
  = (true, {| wfv1.Annotations :=
                Some {[ common.AnnotationKeyFailedPodRestartCountPrefix ++ nodeID
                        := GoStrconv.FormatInt count ]} |}).
Proof.
  intros Hnil. unfold Part003.setFailedPodRestartCount. rewrite Hnil.
  rewrite lookup_empty. cbn [default].
  destruct (String.eqb_spec EmptyString (GoStrconv.FormatInt count)) as [Heq | Hne].
  - exfalso. symmetry in Heq. revert Heq. apply FormatInt_nonempty. lia.
  - cbn [negb]. now rewrite insert_empty.
Qed.

End Accountant.

Section AccountantProperties.
Import Props Fixtures.

Lemma get_after_set (wf : wfv1.Workflow) (nodeID : string) (count : Z) :
  - 2 ^ 31 <= count < 2 ^ 31 ->
  fst (Part003.getFailedPodRestartCount
         (snd (Part003.setFailedPodRestartCount wf nodeID count)) nodeID)
  = count.
Proof.
  intros H. rewrite get_stored, set_stored by exact H.
  now rewrite ParseInt_FormatInt.
Qed.

Lemma increment_unfold (wf : wfv1.Workflow) (nodeID : string) :
  Part003.incrementFailedPodRestartCount wf nodeID
  = (Int32.add (fst (Part003.getFailedPodRestartCount wf nodeID)) 1,
     snd (Part003.setFailedPodRestartCount wf nodeID
            (Int32.add (fst (Part003.getFailedPodRestartCount wf nodeID)) 1))).
Proof.
  unfold Part003.incrementFailedPodRestartCount.
  pose proof (get_frame wf nodeID) as Hframe.
  destruct (Part003.getFailedPodRestartCount wf nodeID) as [current wf'].
  simpl in *. subst wf'.
  now destruct (Part003.setFailedPodRestartCount wf nodeID _).
Qed.

(** C6, as the sources have it. [increment] stores [get + 1] with [set]
    and returns it, and a [get] that follows reads the returned count
    back. The addition is the one of [int32]: when the first of two
    successive increments returns [k < 2^31 - 1] the second returns
    [k + 1]; when it returns [2^31 - 1] the second returns [-2^31]. *)
Theorem increment_sets_get_plus_one (wf : wfv1.Workflow) (nodeID : string) :
  Part004.IncrementFailedPodRestartCount wf nodeID
  = Part003.incrementFailedPodRestartCount wf nodeID
  /\ Part003.incrementFailedPodRestartCount wf nodeID
     = (Int32.add (fst (Part003.getFailedPodRestartCount wf nodeID)) 1,
        snd (Part003.setFailedPodRestartCount wf nodeID
               (Int32.add (fst (Part003.getFailedPodRestartCount wf nodeID)) 1)))
  /\ fst (Part003.getFailedPodRestartCount
            (snd (Part003.incrementFailedPodRestartCount wf nodeID)) nodeID)
     = fst (Part003.incrementFailedPodRestartCount wf nodeID)
  /\ (fst (Part003.incrementFailedPodRestartCount wf nodeID) < 2 ^ 31 - 1 ->
      fst (Part003.incrementFailedPodRestartCount
             (snd (Part003.incrementFailedPodRestartCount wf nodeID)) nodeID)
      = fst (Part003.incrementFailedPodRestartCount wf nodeID) + 1)
  /\ (fst (Part003.incrementFailedPodRestartCount wf nodeID) = 2 ^ 31 - 1 ->
      fst (Part003.incrementFailedPodRestartCount
             (snd (Part003.incrementFailedPodRestartCount wf nodeID)) nodeID)
      = - 2 ^ 31).
Proof.
  split; [reflexivity|]. split; [apply increment_unfold|].
  assert (fst (Part003.getFailedPodRestartCount
                 (snd (Part003.incrementFailedPodRestartCount wf nodeID)) nodeID)
          = fst (Part003.incrementFailedPodRestartCount wf nodeID)) as Hback.
  { rewrite increment_unfold. simpl. apply get_after_set, wrap_in_range. }
  split; [exact Hback|].
  pose proof (wrap_in_range (fst (Part003.getFailedPodRestartCount wf nodeID) + 1))
    as Hrange.
  split; intros Hk;
    rewrite (increment_unfold (snd (Part003.incrementFailedPodRestartCount wf nodeID)));
    cbn [fst]; rewrite Hback; unfold Int32.add at 1.
  - apply wrap_id. rewrite increment_unfold in *. cbn [fst] in *.
    unfold Int32.add in *. lia.
  - rewrite Hk. reflexivity.
Qed.

Lemma increment_sets_get_plus_one_witness :
  fst (Part003.incrementFailedPodRestartCount (annotated "2") "node-123") = 3
  /\ fst (Part003.incrementFailedPodRestartCount
            (snd (Part003.incrementFailedPodRestartCount (annotated "2") "node-123"))
            "node-123") = 3 + 1.
Proof.
  destruct (increment_sets_get_plus_one (annotated "2") "node-123")
    as (_ & _ & _ & Hnext & _).
  assert (fst (Part003.incrementFailedPodRestartCount (annotated "2") "node-123") = 3)
    as Hfirst by (vm_compute; reflexivity).
  split; [exact Hfirst|].
  rewrite Hnext; rewrite Hfirst; reflexivity.
Defined.

(** C6 fails at the top of [int32]: from the annotation "2147483646" the
    first increment returns [2147483647] and the second [-2147483648]. *)
Lemma increment_counterexample :
  fst (Part003.incrementFailedPodRestartCount (annotated "2147483646") "node-123")
  = 2147483647
  /\ fst (Part003.incrementFailedPodRestartCount
            (snd (Part003.incrementFailedPodRestartCount
                    (annotated "2147483646") "node-123")) "node-123")
     = -2147483648.
Proof. split; vm_compute; reflexivity. Qed.

End AccountantProperties.

Section CounterProperties.
Import Props Fixtures.

(** C7, as the sources have it. [get] returns 0 when the annotations map
    is missing, when the annotation is absent, and when the stored string
    is not a decimal numeral (optional sign, digits) of a 32-bit integer;
    it returns the integer of such a numeral, negative ones included; and
    it leaves the workflow as it was. *)
Theorem get_defaults_to_zero (wf : wfv1.Workflow) (nodeID : string) :
  Part004.GetFailedPodRestartCount wf nodeID
  = Part003.getFailedPodRestartCount wf nodeID
  /\ snd (Part003.getFailedPodRestartCount wf nodeID) = wf
  /\ (wfv1.Annotations wf = None ->
      fst (Part003.getFailedPodRestartCount wf nodeID) = 0)
  /\ (storedCount wf nodeID = None ->
      fst (Part003.getFailedPodRestartCount wf nodeID) = 0)
  /\ (forall countStr,
         storedCount wf nodeID = Some countStr -> ~ decimalInt32 countStr ->
         fst (Part003.getFailedPodRestartCount wf nodeID) = 0)
  /\ (forall countStr v,
         storedCount wf nodeID = Some countStr ->
         signedDecimal countStr v -> - 2 ^ 31 <= v < 2 ^ 31 ->
         fst (Part003.getFailedPodRestartCount wf nodeID) = v).
Proof.
  split; [reflexivity|]. split; [apply get_frame|].
  rewrite get_stored. repeat split.
  - intros Hnil. unfold storedCount. now rewrite Hnil.
  - now intros ->.
  - intros countStr -> Hbad. apply ParseInt_None in Hbad. now rewrite Hbad.
  - intros countStr v -> Hnum Hrange.
    assert (GoStrconv.ParseInt countStr 32 = Some v) as E
      by (now apply ParseInt_spec).
    now rewrite E.
Qed.

Lemma get_defaults_to_zero_witness :
  fst (Part003.getFailedPodRestartCount emptyWorkflow "node-123") = 0
  /\ fst (Part003.getFailedPodRestartCount (annotated "5") "other-node") = 0
  /\ fst (Part003.getFailedPodRestartCount (annotated "abc") "node-123") = 0
  /\ fst (Part003.getFailedPodRestartCount (annotated "+007") "node-123") = 7.
Proof.
  split; [|split; [|split]].
  - destruct (get_defaults_to_zero emptyWorkflow "node-123")
      as (_ & _ & H & _).
    apply H. reflexivity.
  - destruct (get_defaults_to_zero (annotated "5") "other-node")
      as (_ & _ & _ & H & _).
    apply H. vm_compute. reflexivity.
  - destruct (get_defaults_to_zero (annotated "abc") "node-123")
      as (_ & _ & _ & _ & H & _).
    apply (H "abc"); [vm_compute; reflexivity|].
    apply ParseInt_None. reflexivity.
  - destruct (get_defaults_to_zero (annotated "+007") "node-123")
      as (_ & _ & _ & _ & _ & H).
    apply (H "+007"); [vm_compute; reflexivity | | lia].
    apply (ParseInt_spec "+007" 7). reflexivity.
Defined.

(** C7 fails on signed numerals: "-5" is not the decimal encoding of a
    non-negative integer, and [get] returns [-5] for it. *)
Lemma get_defaults_counterexample :
  storedCount (annotated "-5") "node-123" = Some "-5"
  /\ ~ nonNegativeDecimalInt32 "-5"
  /\ Part003.getFailedPodRestartCount (annotated "-5") "node-123"
     = (-5, annotated "-5").
Proof.
  split; [vm_compute; reflexivity|]. split; [|vm_compute; reflexivity].
  intros (_ & Hall & _). inversion Hall as [|? ? Hminus _]; subst.
  unfold isDigit in Hminus. vm_compute in Hminus.
  destruct Hminus as [Hminus _]. now apply Hminus.
Qed.

(** C8. For a count [k] with [0 <= k < 2^31]: a [get] after
    [set(wf, n, k)] returns [k]; a second [set(wf, n, k)] reports no
    change; and [set] creates the annotations map of a workflow that has
    none. *)
Theorem set_then_get (wf : wfv1.Workflow) (nodeID : string) (k : Z) :
  0 <= k < 2 ^ 31 ->
  fst (Part003.getFailedPodRestartCount
         (snd (Part003.setFailedPodRestartCount wf nodeID k)) nodeID) = k
  /\ fst (Part003.setFailedPodRestartCount
            (snd (Part003.setFailedPodRestartCount wf nodeID k)) nodeID k) = false
  /\ (wfv1.Annotations wf = None ->
      Part003.setFailedPodRestartCount wf nodeID k
      = (true, {| wfv1.Annotations :=
                    Some {[ common.AnnotationKeyFailedPodRestartCountPrefix ++ nodeID
                            := GoStrconv.FormatInt k ]} |})).
Proof.
  intros Hk. assert (- 2 ^ 31 <= k < 2 ^ 31) as Hk' by lia.
  split; [now apply get_after_set|]. split.
  - rewrite set_changed, set_stored by exact Hk'. simpl.
    now rewrite String.eqb_refl.
  - now apply set_creates_map.
Qed.

Lemma set_then_get_witness :
  fst (Part003.getFailedPodRestartCount
         (snd (Part003.setFailedPodRestartCount emptyWorkflow "node-123" 2))
         "node-123") = 2
  /\ fst (Part003.setFailedPodRestartCount
            (snd (Part003.setFailedPodRestartCount emptyWorkflow "node-123" 2))
            "node-123" 2) = false
  /\ Part003.setFailedPodRestartCount emptyWorkflow "node-123" 2
     = (true, annotated "2").
Proof.
  destruct (set_then_get emptyWorkflow "node-123" 2) as (Hget & Hset & Hnew);
    [lia|].
  split; [exact Hget|]. split; [exact Hset|].
  rewrite Hnew by reflexivity. reflexivity.
Defined.

End CounterProperties.


(** ** The unit tests of the sources, replayed on the model *)

Section UnitTests.
Import apiv1 Fixtures.

(** [TestMainContainerNeverStarted] *)

Example test_no_container_statuses :
  PodRestart.mainContainerNeverStarted (mkPod PodFailed "" "" [] [] []) None = true
  /\ Part004.mainContainerNeverStarted "init" (mkPod PodFailed "" "" [] [] []) None = true.
Proof. split; reflexivity. Qed.

Example test_main_container_waiting :
  let pod := mkPod PodFailed "" "" [] []
                   [container "main" (waiting "ContainerCreating")] in
  PodRestart.mainContainerNeverStarted pod None = true
  /\ Part004.mainContainerNeverStarted "init" pod None = true.
Proof. split; reflexivity. Qed.

Example test_main_container_ran_and_terminated :
  let pod := mkPod PodFailed "" "" [] [] [container "main" (terminated 1 "" now)] in
  PodRestart.mainContainerNeverStarted pod None = false
  /\ Part004.mainContainerNeverStarted "init" pod None = false.
Proof. split; reflexivity. Qed.

Example test_main_container_was_running :
  let pod := mkPod PodFailed "" "" [] [] [container "main" (running now)] in
  PodRestart.mainContainerNeverStarted pod None = false
  /\ Part004.mainContainerNeverStarted "init" pod None = false.
Proof. split; reflexivity. Qed.

Example test_main_container_pod_initializing :
  let pod := mkPod PodFailed "" "" [] []
                   [container "main" (waiting "PodInitializing")] in
  PodRestart.mainContainerNeverStarted pod None = true
  /\ Part004.mainContainerNeverStarted "init" pod None = true.
Proof. split; reflexivity. Qed.

Example test_main_container_terminated_without_start :
  let pod := mkPod PodFailed "" "" [] []
                   [container "main" (terminated 137 "OOMKilled" metav1.zero)] in
  PodRestart.mainContainerNeverStarted pod None = true
  /\ Part004.mainContainerNeverStarted "init" pod None = true.
Proof. split; reflexivity. Qed.

(** [TestIsRestartableReason], written for the table-driven test. *)

Example test_restartable_reasons :
  Part004.isRestartableReason "Evicted" "The node had condition: [DiskPressure]" [] = true
  /\ Part004.isRestartableReason "Evicted" "The node had condition: [MemoryPressure]" [] = true
  /\ Part004.isRestartableReason "Preempted" "" [] = true
  /\ Part004.isRestartableReason "" "Pod was preempted by higher priority pod" [] = true
  /\ Part004.isRestartableReason "NodeShutdown" "" [] = true
  /\ Part004.isRestartableReason "NodeAffinity" "" [] = true
  /\ Part004.isRestartableReason "UnexpectedAdmissionError" "" [] = true
  /\ Part004.isRestartableReason "OOMKilled" "" [] = false
  /\ Part004.isRestartableReason "Error" "some error" [] = false
  /\ Part004.isRestartableReason "" ""
       [{| Type_ := "DisruptionTarget"; CondStatus := ConditionTrue |}] = true
  /\ Part004.isRestartableReason "" ""
       [{| Type_ := "DisruptionTarget"; CondStatus := ConditionFalse |}] = false.
Proof. repeat split; vm_compute; reflexivity. Qed.

(** [TestAnalyzePodForRestart] *)

Example test_analyze_running_pod :
  PodRestart.analyzePodForRestart runningPod None
  = {| PodRestart.shouldRestart := false; PodRestart.reason := "";
       PodRestart.neverStarted := false |}
  /\ Part004.AnalyzePodForRestart "init" runningPod None
     = {| Part004.ShouldRestart := false; Part004.Reason := "";
          Part004.Message := ""; Part004.NeverStarted := false |}.
Proof. split; reflexivity. Qed.

Example test_analyze_succeeded_pod :
  let pod := mkPod PodSucceeded "" "" [] [] [] in
  PodRestart.shouldRestart (PodRestart.analyzePodForRestart pod None) = false
  /\ PodRestart.neverStarted (PodRestart.analyzePodForRestart pod None) = false
  /\ Part004.ShouldRestart (Part004.AnalyzePodForRestart "init" pod None) = false
  /\ Part004.NeverStarted (Part004.AnalyzePodForRestart "init" pod None) = false.
Proof. repeat split; reflexivity. Qed.

Example test_analyze_evicted_before_start :
  PodRestart.analyzePodForRestart evictedBeforeStart None
  = {| PodRestart.shouldRestart := true; PodRestart.reason := "Evicted";
       PodRestart.neverStarted := true |}
  /\ Part004.AnalyzePodForRestart "init" evictedBeforeStart None
     = {| Part004.ShouldRestart := true; Part004.Reason := "Evicted";
          Part004.Message := "The node had condition: [DiskPressure]";
          Part004.NeverStarted := true |}.
Proof. split; vm_compute; reflexivity. Qed.

Example test_analyze_evicted_after_run :
  PodRestart.analyzePodForRestart evictedAfterRun None
  = {| PodRestart.shouldRestart := false; PodRestart.reason := "Evicted";
       PodRestart.neverStarted := false |}
  /\ Part004.AnalyzePodForRestart "init" evictedAfterRun None
     = {| Part004.ShouldRestart := false; Part004.Reason := "Evicted";
          Part004.Message := "The node had condition: [DiskPressure]";
          Part004.NeverStarted := false |}.
Proof. split; vm_compute; reflexivity. Qed.

Example test_analyze_not_restartable :
  PodRestart.analyzePodForRestart oomBeforeStart None
  = {| PodRestart.shouldRestart := false; PodRestart.reason := "OOMKilled";
       PodRestart.neverStarted := true |}
  /\ Part004.AnalyzePodForRestart "init" oomBeforeStart None
     = {| Part004.ShouldRestart := false; Part004.Reason := "OOMKilled";
          Part004.Message := ""; Part004.NeverStarted := true |}.
Proof. split; vm_compute; reflexivity. Qed.

(** [TestGetEvictionReason] *)

Example test_eviction_reasons :
  PodRestart.getEvictionReason
    (mkPod "" "Evicted" "The node had condition: [DiskPressure]" [] [] [])
  = Some "DiskPressure"
  /\ PodRestart.getEvictionReason
       (mkPod "" "Evicted" "The node had condition: [MemoryPressure]" [] [] [])
     = Some "MemoryPressure"
  /\ PodRestart.getEvictionReason notEvicted = Some EmptyString
  /\ PodRestart.getEvictionReason evictedNoBrackets = Some "Evicted".
Proof. repeat split; vm_compute; reflexivity. Qed.

(** [TestFailedPodRestartCount] *)

Example test_get_count_empty_workflow :
  fst (Part003.getFailedPodRestartCount emptyWorkflow "node-123") = 0.
Proof. reflexivity. Qed.

Example test_get_count_no_matching_annotation :
  fst (Part003.getFailedPodRestartCount
         {| wfv1.Annotations := Some {[ countKey "other-node" := "5" ]} |}
         "node-123") = 0.
Proof. vm_compute. reflexivity. Qed.

Example test_get_count_matching_annotation :
  fst (Part003.getFailedPodRestartCount (annotated "3") "node-123") = 3.
Proof. vm_compute. reflexivity. Qed.

Example test_set_count_no_annotations :
  Part003.setFailedPodRestartCount emptyWorkflow "node-123" 2
  = (true, annotated "2").
Proof. vm_compute. reflexivity. Qed.

Example test_set_same_count :
  fst (Part003.setFailedPodRestartCount (annotated "2") "node-123" 2) = false.
Proof. vm_compute. reflexivity. Qed.

Example test_increment_count :
  Part003.incrementFailedPodRestartCount (annotated "2") "node-123"
  = (3, annotated "3").
Proof. vm_compute. reflexivity. Qed.

Example test_increment_count_from_zero :
  Part003.incrementFailedPodRestartCount emptyWorkflow "node-123"
  = (1, annotated "1").
Proof. vm_compute. reflexivity. Qed.

End UnitTests.

(** ** Further properties of the sources *)

Section FurtherProperties.
Import apiv1 Props Fixtures.

(** The never-started determination of [pod_restart.go]: the answer is
    [true] exactly when no main container shows it has run (which holds
    in particular for an empty list); with the init-container gate, also
    when the init container is still [Waiting]. *)
Theorem never_started_determination (pod : Pod) (tmpl : option wfv1.Template)
    (InitContainerName : string) :
  (PodRestart.mainContainerNeverStarted pod tmpl = true
   <-> Forall (fun status => PodRestart.isMainContainer tmpl (Name status) = true
                             -> ~ showsRun status)
              (ContainerStatuses (Status pod)))
  /\ (Part004.mainContainerNeverStarted InitContainerName pod tmpl = true
      <-> Exists (initWaiting InitContainerName) (InitContainerStatuses (Status pod))
          \/ Forall (fun status => PodRestart.isMainContainer tmpl (Name status) = true
                                   -> ~ showsRun status)
                    (ContainerStatuses (Status pod))).
Proof.
  assert (forall statuses,
             PodRestart.mainContainersLoop tmpl statuses = true
             <-> Forall (fun status =>
                           PodRestart.isMainContainer tmpl (Name status) = true
                           -> ~ showsRun status) statuses) as Hloop.
  { intros statuses. rewrite List.Forall_forall. split.
    - intros Htrue status Hin Hmain Hrun.
      assert (PodRestart.mainContainersLoop tmpl statuses = false) as Hfalse
        by (apply mainContainersLoop_false; now exists status).
      congruence.
    - intros Hall.
      destruct (PodRestart.mainContainersLoop tmpl statuses) eqn:E; [reflexivity|].
      apply mainContainersLoop_false in E as (status & Hin & Hmain & Hrun).
      now destruct (Hall status Hin Hmain). }
  split.
  - rewrite mainContainerNeverStarted_loop. apply Hloop.
  - rewrite <- Hloop, <- initContainersLoop_true.
    unfold Part004.mainContainerNeverStarted.
    destruct (InitContainerStatuses (Status pod)) as [|i inits];
      destruct (ContainerStatuses (Status pod)) as [|c cs];
      cbn [app List.length Nat.eqb];
      try (destruct (Part004.initContainersLoop InitContainerName (i :: inits)));
      simpl; intuition congruence.
Qed.

(** [set] on one node leaves the count of every other node as it was. *)
Theorem set_leaves_other_nodes (wf : wfv1.Workflow) (nodeID other : string)
    (count : Z) :
  other <> nodeID ->
  storedCount (snd (Part003.setFailedPodRestartCount wf nodeID count)) other
  = storedCount wf other.
Proof.
  intros Hother.
  assert (common.AnnotationKeyFailedPodRestartCountPrefix ++ nodeID
          <> common.AnnotationKeyFailedPodRestartCountPrefix ++ other) as Hkey.
  { intros Heq. apply Hother. symmetry.
    revert Heq. generalize common.AnnotationKeyFailedPodRestartCountPrefix.
    intros prefix. induction prefix as [|a prefix IH]; simpl; intros Heq;
      [exact Heq | apply IH; congruence]. }
  unfold Part003.setFailedPodRestartCount, storedCount.
  destruct (negb _); cbn [snd wfv1.Annotations].
  - rewrite lookup_insert_ne by exact Hkey.
    destruct (wfv1.Annotations wf); [reflexivity | apply lookup_empty].
  - destruct (wfv1.Annotations wf); [reflexivity | apply lookup_empty].
Qed.

Lemma set_leaves_other_nodes_witness :
  storedCount (snd (Part003.setFailedPodRestartCount (annotated "5") "node-9" 1))
              "node-123"
  = Some "5".
Proof.
  rewrite (set_leaves_other_nodes (annotated "5") "node-9" "node-123" 1).
  - vm_compute. reflexivity.
  - discriminate.
Defined.

(** What [set] stores for any [int32] count, negative ones included, [get]
    reads back. *)
Theorem set_get_round_trip (wf : wfv1.Workflow) (nodeID : string) (count : Z) :
  - 2 ^ 31 <= count < 2 ^ 31 ->
  fst (Part003.getFailedPodRestartCount
         (snd (Part003.setFailedPodRestartCount wf nodeID count)) nodeID)
  = count.
Proof. apply get_after_set. Qed.

Lemma set_get_round_trip_witness :
  fst (Part003.getFailedPodRestartCount
         (snd (Part003.setFailedPodRestartCount emptyWorkflow "node-123"
                                                (-2147483648))) "node-123")
  = -2147483648.
Proof. apply set_get_round_trip. lia. Defined.

End FurtherProperties.


(** ** The accountant: how its operations compose *)

Section AccountantComposition.
Import Props Fixtures.

(** The workflow [set] leaves behind, whether it wrote or not. *)
Lemma set_state (wf : wfv1.Workflow) (nodeID : string) (count : Z) :
  - 2 ^ 31 <= count < 2 ^ 31 ->
  snd (Part003.setFailedPodRestartCount wf nodeID count)
  = {| wfv1.Annotations :=
         Some (<[common.AnnotationKeyFailedPodRestartCountPrefix ++ nodeID
                 := GoStrconv.FormatInt count]>
               match wfv1.Annotations wf with
               | Some annotations => annotations
               | None => ∅
               end) |}.
Proof.
  intros Hcount. unfold Part003.setFailedPodRestartCount.
  set (annotations := match wfv1.Annotations wf with
                      | Some annotations => annotations
                      | None => ∅
                      end).
  set (key := common.AnnotationKeyFailedPodRestartCountPrefix ++ nodeID).
  destruct (String.eqb_spec (default EmptyString (annotations !! key))
              (GoStrconv.FormatInt count)) as [Heq | Hne]; cbn [negb snd];
    [|reflexivity].
  f_equal. f_equal. symmetry. apply insert_id.
  destruct (annotations !! key) as [v|]; simpl in Heq; [now subst|].
  exfalso. symmetry in Heq. revert Heq. apply FormatInt_nonempty. lia.
Qed.

Lemma annotationOf_count (wf : wfv1.Workflow) (nodeID : string) :
  annotationOf wf (common.AnnotationKeyFailedPodRestartCountPrefix ++ nodeID)
  = storedCount wf nodeID.
Proof. reflexivity. Qed.

(** [set] reports no change exactly when the annotation already holds the
    numeral [FormatInt] writes for the count, and then it hands the
    workflow back as it received it. *)
Theorem set_unchanged_workflow (wf : wfv1.Workflow) (nodeID : string) (count : Z) :
  - 2 ^ 31 <= count < 2 ^ 31 ->
  (fst (Part003.setFailedPodRestartCount wf nodeID count) = false
   <-> storedCount wf nodeID = Some (GoStrconv.FormatInt count))
  /\ (fst (Part003.setFailedPodRestartCount wf nodeID count) = false ->
      snd (Part003.setFailedPodRestartCount wf nodeID count) = wf).
Proof.
  intros Hcount.
  assert (fst (Part003.setFailedPodRestartCount wf nodeID count) = false
          <-> storedCount wf nodeID = Some (GoStrconv.FormatInt count)) as Hiff.
  { rewrite set_changed by exact Hcount.
    destruct (String.eqb_spec (default EmptyString (storedCount wf nodeID))
                (GoStrconv.FormatInt count)) as [Heq | Hne]; cbn [negb].
    - split; [intros _ | reflexivity].
      destruct (storedCount wf nodeID) as [v|]; simpl in Heq; [now subst|].
      exfalso. symmetry in Heq. revert Heq. apply FormatInt_nonempty. lia.
    - split; [discriminate|]. intros Hs. rewrite Hs in Hne. now destruct Hne. }
  split; [exact Hiff|].
  intros Hfalse. apply Hiff in Hfalse.
  rewrite set_state by exact Hcount.
  unfold storedCount in Hfalse. destruct wf as [[annotations|]]; simpl in *;
    [|discriminate].
  f_equal. f_equal. now apply insert_id.
Qed.

Lemma set_unchanged_workflow_witness :
  Part003.setFailedPodRestartCount (annotated "2") "node-123" 2
  = (false, annotated "2").
Proof.
  destruct (set_unchanged_workflow (annotated "2") "node-123" 2) as [Hiff Hsame];
    [lia|].
  assert (fst (Part003.setFailedPodRestartCount (annotated "2") "node-123" 2) = false)
    as Hfalse by (apply Hiff; vm_compute; reflexivity).
  specialize (Hsame Hfalse).
  destruct (Part003.setFailedPodRestartCount (annotated "2") "node-123" 2).
  simpl in *. now subst.
Defined.

(** A stored numeral that is not the one [FormatInt] writes is rewritten,
    and [set] reports a change, even when it denotes the same count. *)
Theorem set_rewrites_other_numerals (wf : wfv1.Workflow) (nodeID : string)
    (count : Z) (countStr : string) :
  - 2 ^ 31 <= count < 2 ^ 31 ->
  storedCount wf nodeID = Some countStr ->
  countStr <> GoStrconv.FormatInt count ->
  fst (Part003.setFailedPodRestartCount wf nodeID count) = true
  /\ storedCount (snd (Part003.setFailedPodRestartCount wf nodeID count)) nodeID
     = Some (GoStrconv.FormatInt count).
Proof.
  intros Hcount Hstored Hne. split; [|now apply set_stored].
  rewrite set_changed, Hstored by exact Hcount. simpl.
  apply String.eqb_neq in Hne. now rewrite Hne.
Qed.

Lemma set_rewrites_other_numerals_witness :
  fst (Part003.getFailedPodRestartCount (annotated "+02") "node-123") = 2
  /\ fst (Part003.setFailedPodRestartCount (annotated "+02") "node-123" 2) = true
  /\ storedCount (snd (Part003.setFailedPodRestartCount (annotated "+02") "node-123" 2))
                 "node-123" = Some "2".
Proof.
  split; [vm_compute; reflexivity|].
  apply (set_rewrites_other_numerals (annotated "+02") "node-123" 2 "+02").
  - lia.
  - vm_compute. reflexivity.
  - vm_compute. discriminate.
Defined.

(** The last [set] wins: setting one count and then another leaves the
    workflow that setting the second count alone leaves. *)
Theorem set_last_write_wins (wf : wfv1.Workflow) (nodeID : string) (k1 k2 : Z) :
  - 2 ^ 31 <= k1 < 2 ^ 31 ->
  - 2 ^ 31 <= k2 < 2 ^ 31 ->
  snd (Part003.setFailedPodRestartCount
         (snd (Part003.setFailedPodRestartCount wf nodeID k1)) nodeID k2)
  = snd (Part003.setFailedPodRestartCount wf nodeID k2).
Proof.
  intros H1 H2. rewrite !set_state by assumption. cbn [wfv1.Annotations].
  now rewrite insert_insert_eq.
Qed.

Lemma set_last_write_wins_witness :
  snd (Part003.setFailedPodRestartCount
         (snd (Part003.setFailedPodRestartCount emptyWorkflow "node-123" 7))
         "node-123" 2)
  = annotated "2".
Proof.
  rewrite (set_last_write_wins emptyWorkflow "node-123" 7 2) by lia.
  vm_compute. reflexivity.
Defined.

(** [increment] heals: when the annotation is absent or is no decimal
    numeral of a 32-bit integer, [increment] returns 1 and stores "1". *)
Theorem increment_heals (wf : wfv1.Workflow) (nodeID : string) :
  storedCount wf nodeID = None
  \/ (exists countStr, storedCount wf nodeID = Some countStr /\ ~ decimalInt32 countStr) ->
  fst (Part003.incrementFailedPodRestartCount wf nodeID) = 1
  /\ storedCount (snd (Part003.incrementFailedPodRestartCount wf nodeID)) nodeID
     = Some "1".
Proof.
  intros Hbad.
  assert (fst (Part003.getFailedPodRestartCount wf nodeID) = 0) as Hget.
  { rewrite get_stored. destruct Hbad as [-> | (countStr & -> & Hbad)]; [reflexivity|].
    apply ParseInt_None in Hbad. now rewrite Hbad. }
  rewrite increment_unfold, Hget. cbn [fst snd].
  change (Int32.add 0 1) with 1. split; [reflexivity|].
  rewrite set_stored by lia. reflexivity.
Qed.

Lemma increment_heals_witness :
  fst (Part003.incrementFailedPodRestartCount (annotated "abc") "node-123") = 1
  /\ storedCount (snd (Part003.incrementFailedPodRestartCount (annotated "abc")
                                                              "node-123"))
                 "node-123" = Some "1".
Proof.
  apply (increment_heals (annotated "abc") "node-123").
  right. exists "abc". split; [vm_compute; reflexivity|].
  apply ParseInt_None. reflexivity.
Defined.

Lemma get_in_range (wf : wfv1.Workflow) (nodeID : string) :
  - 2 ^ 31 <= fst (Part003.getFailedPodRestartCount wf nodeID) < 2 ^ 31.
Proof.
  rewrite get_stored. destruct (storedCount wf nodeID) as [countStr|]; [|lia].
  destruct (GoStrconv.ParseInt countStr 32) as [v|] eqn:E; simpl; [|lia].
  now apply ParseInt_spec in E.
Qed.

Lemma get_after_increment (wf : wfv1.Workflow) (nodeID : string) :
  fst (Part003.getFailedPodRestartCount
         (snd (Part003.incrementFailedPodRestartCount wf nodeID)) nodeID)
  = Int32.add (fst (Part003.getFailedPodRestartCount wf nodeID)) 1.
Proof.
  rewrite increment_unfold. cbn [snd]. apply get_after_set, wrap_in_range.
Qed.

(** Counting: after [n] increments for a node, [get] returns the count it
    returned before plus [n], as long as that sum is an [int32]. *)
Theorem increments_add_up (wf : wfv1.Workflow) (nodeID : string) (n : nat) :
  fst (Part003.getFailedPodRestartCount wf nodeID) + Z.of_nat n < 2 ^ 31 ->
  fst (Part003.getFailedPodRestartCount (incrementTimes n wf nodeID) nodeID)
  = fst (Part003.getFailedPodRestartCount wf nodeID) + Z.of_nat n.
Proof.
  pose proof (get_in_range wf nodeID) as Hrange.
  induction n as [|n IH]; intros Hsum.
  - simpl. lia.
  - cbn [incrementTimes]. rewrite get_after_increment, IH by lia.
    unfold Int32.add. rewrite wrap_id; lia.
Qed.

Lemma increments_add_up_witness :
  fst (Part003.getFailedPodRestartCount
         (incrementTimes 4 (annotated "3") "node-123") "node-123")
  = fst (Part003.getFailedPodRestartCount (annotated "3") "node-123") + 4.
Proof.
  apply (increments_add_up (annotated "3") "node-123" 4).
  vm_compute. reflexivity.
Defined.

Lemma increment_other_annotation (wf : wfv1.Workflow) (nodeID key : string) :
  key <> common.AnnotationKeyFailedPodRestartCountPrefix ++ nodeID ->
  annotationOf (snd (Part003.incrementFailedPodRestartCount wf nodeID)) key
  = annotationOf wf key.
Proof.
  intros Hkey. rewrite increment_unfold. cbn [snd].
  rewrite set_state by apply wrap_in_range.
  unfold annotationOf. cbn [wfv1.Annotations].
  rewrite lookup_insert_ne by congruence.
  destruct (wfv1.Annotations wf); [reflexivity | apply lookup_empty].
Qed.

(** However often a node's count is incremented, every annotation of the
    workflow under another key stays as it was. *)
Theorem increments_keep_other_annotations (wf : wfv1.Workflow)
    (nodeID key : string) (n : nat) :
  key <> common.AnnotationKeyFailedPodRestartCountPrefix ++ nodeID ->
  annotationOf (incrementTimes n wf nodeID) key = annotationOf wf key.
Proof.
  intros Hkey. induction n as [|n IH]; [reflexivity|].
  cbn [incrementTimes]. now rewrite increment_other_annotation.
Qed.

Lemma increments_keep_other_annotations_witness :
  annotationOf (incrementTimes 3 (annotated "5") "node-9") (countKey "node-123")
  = Some "5".
Proof.
  rewrite (increments_keep_other_annotations (annotated "5") "node-9"
             (countKey "node-123") 3).
  - vm_compute. reflexivity.
  - vm_compute. discriminate.
Defined.

End AccountantComposition.

(** ** The three classifiers side by side *)

Section VariantFacts.
Import apiv1 Props.

Variable tmpl : option wfv1.Template.

Lemma Part003_isRestartableReason_eq (reason message : string)
    (conditions : list PodCondition) :
  Part003.isRestartableReason reason message conditions
  = Part004.isRestartableReason reason message conditions.
Proof.
  unfold Part003.isRestartableReason, Part004.isRestartableReason.
  replace (Part003.disruptionTargetLoop conditions)
    with (Part004.disruptionTargetLoop conditions)
    by (induction conditions as [|c cs IH]; simpl; [reflexivity | now rewrite IH]).
  reflexivity.
Qed.

Lemma Part003_never_started_eq (pod : Pod) :
  Part003.mainContainerNeverStarted pod tmpl
  = PodRestart.mainContainerNeverStarted pod tmpl.
Proof.
  unfold Part003.mainContainerNeverStarted, PodRestart.mainContainerNeverStarted.
  now destruct (ContainerStatuses (Status pod)).
Qed.

(** With the gate, the answer is the gate's or the loop's. *)
Lemma Part004_never_started_orb (InitContainerName : string) (pod : Pod) :
  Part004.mainContainerNeverStarted InitContainerName pod tmpl
  = Part004.initContainersLoop InitContainerName (InitContainerStatuses (Status pod))
    || PodRestart.mainContainerNeverStarted pod tmpl.
Proof.
  unfold Part004.mainContainerNeverStarted. rewrite mainContainerNeverStarted_loop.
  destruct (InitContainerStatuses (Status pod)) as [|i inits];
    destruct (ContainerStatuses (Status pod)) as [|c cs];
    cbn [app List.length Nat.eqb]; try reflexivity;
    cbn [Part004.initContainersLoop PodRestart.mainContainersLoop orb];
    now rewrite ?orb_true_r.
Qed.

Lemma analyze003_not_failed (pod : Pod) :
  Phase (Status pod) <> PodFailed ->
  Part003.analyzePodForRestart pod tmpl
  = {| Part003.shouldRestart := false;
       Part003.reason := Reason (Status pod);
       Part003.message := Message (Status pod);
       Part003.neverStarted := false |}.
Proof.
  intros H. unfold Part003.analyzePodForRestart.
  apply String.eqb_neq in H. now rewrite H.
Qed.

Lemma analyze003_failed (pod : Pod) :
  Phase (Status pod) = PodFailed ->
  Part003.analyzePodForRestart pod tmpl
  = {| Part003.shouldRestart :=
         PodRestart.mainContainerNeverStarted pod tmpl
         && Part004.isRestartableReason (Reason (Status pod))
              (Message (Status pod)) (Conditions (Status pod));
       Part003.reason := Reason (Status pod);
       Part003.message := Message (Status pod);
       Part003.neverStarted := PodRestart.mainContainerNeverStarted pod tmpl |}.
Proof.
  intros H. unfold Part003.analyzePodForRestart.
  rewrite H, String.eqb_refl, Part003_never_started_eq,
    Part003_isRestartableReason_eq.
  simpl.
  destruct (PodRestart.mainContainerNeverStarted pod tmpl); [|reflexivity].
  simpl. now destruct (Part004.isRestartableReason _ _ _).
Qed.

(** The loop returns [true] exactly when no main container has run. *)
Lemma mainContainersLoop_true (statuses : list ContainerStatus) :
  PodRestart.mainContainersLoop tmpl statuses = true
  <-> Forall (fun status => PodRestart.isMainContainer tmpl (Name status) = true
                            -> ~ showsRun status) statuses.
Proof.
  rewrite List.Forall_forall. split.
  - intros Htrue status Hin Hmain Hrun.
    assert (PodRestart.mainContainersLoop tmpl statuses = false) as Hfalse
      by (apply mainContainersLoop_false; now exists status).
    congruence.
  - intros Hall.
    destruct (PodRestart.mainContainersLoop tmpl statuses) eqn:E; [reflexivity|].
    apply mainContainersLoop_false in E as (status & Hin & Hmain & Hrun).
    now destruct (Hall status Hin Hmain).
Qed.

Lemma exact_reason_in_table (reason : string) :
  In reason exactReasons -> In reason tableReasons.
Proof. unfold exactReasons, tableReasons. simpl. tauto. Qed.

End VariantFacts.

Section VariantProperties.
Import apiv1 Props Fixtures.

(** The restart decisions nest: whatever [pod_restart.go] restarts, the
    table-driven variant restarts, and whatever that one restarts, the
    variant with the init-container gate restarts; the first two always
    agree on never started, and the gate can only turn that answer to
    [true]. *)
Theorem restart_decisions_nest (pod : Pod) (tmpl : option wfv1.Template)
    (InitContainerName : string) :
  (PodRestart.shouldRestart (PodRestart.analyzePodForRestart pod tmpl) = true ->
   Part003.shouldRestart (Part003.analyzePodForRestart pod tmpl) = true)
  /\ (Part003.shouldRestart (Part003.analyzePodForRestart pod tmpl) = true ->
      Part004.ShouldRestart
        (Part004.AnalyzePodForRestart InitContainerName pod tmpl) = true)
  /\ Part003.neverStarted (Part003.analyzePodForRestart pod tmpl)
     = PodRestart.neverStarted (PodRestart.analyzePodForRestart pod tmpl)
  /\ (Part003.neverStarted (Part003.analyzePodForRestart pod tmpl) = true ->
      Part004.NeverStarted
        (Part004.AnalyzePodForRestart InitContainerName pod tmpl) = true).
Proof.
  destruct (phase_dec pod) as [Hf | Hf].
  - rewrite (analyze_failed tmpl pod Hf), (analyze003_failed tmpl pod Hf),
      (Analyze_failed tmpl InitContainerName pod Hf).
    cbn [PodRestart.shouldRestart PodRestart.neverStarted Part003.shouldRestart
         Part003.neverStarted Part004.ShouldRestart Part004.NeverStarted].
    rewrite Part004_never_started_orb.
    repeat split.
    + rewrite !andb_true_iff. intros [Hn Hr]. split; [exact Hn|].
      apply isRestartableReason_broad. left.
      now apply exact_reason_in_table, isRestartableReason_exact.
    + rewrite !andb_true_iff, orb_true_iff. tauto.
    + rewrite orb_true_iff. tauto.
  - rewrite (analyze_not_failed tmpl pod Hf), (analyze003_not_failed tmpl pod Hf),
      (Analyze_not_failed tmpl InitContainerName pod Hf).
    simpl. repeat split; discriminate.
Qed.

Lemma restart_decisions_nest_witness :
  Part003.shouldRestart (Part003.analyzePodForRestart evictedDuringInit None) = true
  /\ Part004.ShouldRestart
       (Part004.AnalyzePodForRestart "init" evictedDuringInit None) = true.
Proof.
  destruct (restart_decisions_nest evictedDuringInit None "init")
    as (Hstrict & Htable & _).
  assert (Part003.shouldRestart (Part003.analyzePodForRestart evictedDuringInit None)
          = true) as H by (apply Hstrict; vm_compute; reflexivity).
  split; [exact H | exact (Htable H)].
Defined.

(** The init-container gate is the only difference between the two
    table-driven variants: when no status of the init container is
    [Waiting] without a run or a termination, they return the same
    decision, field by field. *)
Theorem variants_agree_without_gate (pod : Pod) (tmpl : option wfv1.Template)
    (InitContainerName : string) :
  Forall (fun status => ~ initWaiting InitContainerName status)
         (InitContainerStatuses (Status pod)) ->
  Part004.ShouldRestart (Part004.AnalyzePodForRestart InitContainerName pod tmpl)
  = Part003.shouldRestart (Part003.analyzePodForRestart pod tmpl)
  /\ Part004.NeverStarted (Part004.AnalyzePodForRestart InitContainerName pod tmpl)
     = Part003.neverStarted (Part003.analyzePodForRestart pod tmpl)
  /\ Part004.Reason (Part004.AnalyzePodForRestart InitContainerName pod tmpl)
     = Part003.reason (Part003.analyzePodForRestart pod tmpl)
  /\ Part004.Message (Part004.AnalyzePodForRestart InitContainerName pod tmpl)
     = Part003.message (Part003.analyzePodForRestart pod tmpl).
Proof.
  intros Hgate. apply initContainersLoop_false in Hgate.
  destruct (phase_dec pod) as [Hf | Hf].
  - rewrite (analyze003_failed tmpl pod Hf),
      (Analyze_failed tmpl InitContainerName pod Hf).
    cbn [Part003.shouldRestart Part003.neverStarted Part003.reason Part003.message
         Part004.ShouldRestart Part004.NeverStarted Part004.Reason Part004.Message].
    rewrite Part004_never_started_orb, Hgate. simpl. auto.
  - rewrite (analyze003_not_failed tmpl pod Hf),
      (Analyze_not_failed tmpl InitContainerName pod Hf).
    simpl. auto.
Qed.

Lemma variants_agree_without_gate_witness :
  Part004.ShouldRestart (Part004.AnalyzePodForRestart "init" evictedDuringInit None)
  = Part003.shouldRestart (Part003.analyzePodForRestart evictedDuringInit None)
  /\ Part004.NeverStarted (Part004.AnalyzePodForRestart "init" evictedDuringInit None)
     = Part003.neverStarted (Part003.analyzePodForRestart evictedDuringInit None)
  /\ Part004.Reason (Part004.AnalyzePodForRestart "init" evictedDuringInit None)
     = Part003.reason (Part003.analyzePodForRestart evictedDuringInit None)
  /\ Part004.Message (Part004.AnalyzePodForRestart "init" evictedDuringInit None)
     = Part003.message (Part003.analyzePodForRestart evictedDuringInit None).
Proof.
  apply (variants_agree_without_gate evictedDuringInit None "init").
  constructor; [|constructor].
  intros (Hname & _). vm_compute in Hname. discriminate.
Defined.

(** The whole decision of [pod_restart.go]: a pod is restarted exactly
    when its phase is [Failed], no main container shows it has run, and
    its reason is one of the four of the [switch]. *)
Theorem restart_decision (pod : Pod) (tmpl : option wfv1.Template) :
  PodRestart.shouldRestart (PodRestart.analyzePodForRestart pod tmpl) = true
  <-> Phase (Status pod) = PodFailed
      /\ Forall (fun status => PodRestart.isMainContainer tmpl (Name status) = true
                               -> ~ showsRun status)
                (ContainerStatuses (Status pod))
      /\ In (Reason (Status pod)) exactReasons.
Proof.
  rewrite <- mainContainersLoop_true, <- mainContainerNeverStarted_loop,
    <- isRestartableReason_exact.
  destruct (phase_dec pod) as [Hf | Hf].
  - rewrite (analyze_failed tmpl pod Hf). cbn [PodRestart.shouldRestart].
    rewrite andb_true_iff. tauto.
  - rewrite (analyze_not_failed tmpl pod Hf). cbn [PodRestart.shouldRestart].
    split; [discriminate | tauto].
Qed.

(** The whole decision of the table-driven variants: phase [Failed], a
    reason of the table or a message fragment or a [DisruptionTarget]
    condition, and no main container that has run; with the gate, a
    [Waiting] init container stands in for the last condition. *)
Theorem restart_decision_table (pod : Pod) (tmpl : option wfv1.Template)
    (InitContainerName : string) :
  (Part003.shouldRestart (Part003.analyzePodForRestart pod tmpl) = true
   <-> Phase (Status pod) = PodFailed
       /\ Forall (fun status => PodRestart.isMainContainer tmpl (Name status) = true
                                -> ~ showsRun status)
                 (ContainerStatuses (Status pod))
       /\ (In (Reason (Status pod)) tableReasons
           \/ Exists (fun fragment => occursIn fragment (Message (Status pod)))
                     messageFragments
           \/ Exists disruptionTarget (Conditions (Status pod))))
  /\ (Part004.ShouldRestart
        (Part004.AnalyzePodForRestart InitContainerName pod tmpl) = true
      <-> Phase (Status pod) = PodFailed
          /\ (Exists (initWaiting InitContainerName)
                     (InitContainerStatuses (Status pod))
              \/ Forall (fun status =>
                           PodRestart.isMainContainer tmpl (Name status) = true
                           -> ~ showsRun status)
                        (ContainerStatuses (Status pod)))
          /\ (In (Reason (Status pod)) tableReasons
              \/ Exists (fun fragment => occursIn fragment (Message (Status pod)))
                        messageFragments
              \/ Exists disruptionTarget (Conditions (Status pod)))).
Proof.
  rewrite <- mainContainersLoop_true, <- mainContainerNeverStarted_loop,
    <- isRestartableReason_broad, <- initContainersLoop_true.
  destruct (phase_dec pod) as [Hf | Hf].
  - rewrite (analyze003_failed tmpl pod Hf),
      (Analyze_failed tmpl InitContainerName pod Hf).
    cbn [Part003.shouldRestart Part004.ShouldRestart].
    rewrite Part004_never_started_orb, !andb_true_iff, orb_true_iff. tauto.
  - rewrite (analyze003_not_failed tmpl pod Hf),
      (Analyze_not_failed tmpl InitContainerName pod Hf).
    cbn [Part003.shouldRestart Part004.ShouldRestart].
    split; (split; [discriminate | tauto]).
Qed.

End VariantProperties.

(** ** What the never-started determination reads *)

Section Evidence.
Import apiv1 Props Fixtures.

Variable tmpl : option wfv1.Template.

Lemma bool_eq_false_iff (a b : bool) : (a = false <-> b = false) -> a = b.
Proof.
  destruct a, b; intros [H1 H2]; try reflexivity.
  - now apply H2.
  - symmetry. now apply H1.
Qed.

(** Statuses of other containers do not count. *)
Lemma mainContainersLoop_filter (statuses : list ContainerStatus) :
  PodRestart.mainContainersLoop tmpl statuses
  = PodRestart.mainContainersLoop tmpl
      (List.filter (fun status => PodRestart.isMainContainer tmpl (Name status))
                   statuses).
Proof.
  apply bool_eq_false_iff. rewrite !mainContainersLoop_false.
  split; intros (status & Hin & Hmain & Hrun); exists status.
  - split; [|auto]. apply filter_In. auto.
  - apply filter_In in Hin as [Hin _]. auto.
Qed.

(** The order of the statuses does not count. *)
Lemma mainContainersLoop_Permutation (l1 l2 : list ContainerStatus) :
  Permutation l1 l2 ->
  PodRestart.mainContainersLoop tmpl l1 = PodRestart.mainContainersLoop tmpl l2.
Proof.
  intros Hperm. apply bool_eq_false_iff. rewrite !mainContainersLoop_false.
  split; intros (status & Hin & Hmain & Hrun); exists status; (split; [|auto]).
  - eapply Permutation_in; eauto.
  - eapply Permutation_in; [symmetry|]; eauto.
Qed.


End Evidence.

Section EvidenceProperties.
Import apiv1 Props Fixtures.

(** Only the main containers count, in any order: two pods whose main
    container statuses are the same up to their order get the same
    never-started answer, whatever other containers each lists; with the
    init-container gate, provided their init statuses are the same. *)
Theorem never_started_reads_main_containers (pod1 pod2 : Pod)
    (tmpl : option wfv1.Template) (InitContainerName : string) :
  Permutation
    (List.filter (fun status => PodRestart.isMainContainer tmpl (Name status))
                 (ContainerStatuses (Status pod1)))
    (List.filter (fun status => PodRestart.isMainContainer tmpl (Name status))
                 (ContainerStatuses (Status pod2))) ->
  PodRestart.mainContainerNeverStarted pod1 tmpl
  = PodRestart.mainContainerNeverStarted pod2 tmpl
  /\ Part003.mainContainerNeverStarted pod1 tmpl
     = Part003.mainContainerNeverStarted pod2 tmpl
  /\ (InitContainerStatuses (Status pod1) = InitContainerStatuses (Status pod2) ->
      Part004.mainContainerNeverStarted InitContainerName pod1 tmpl
      = Part004.mainContainerNeverStarted InitContainerName pod2 tmpl).
Proof.
  intros Hperm.
  assert (PodRestart.mainContainerNeverStarted pod1 tmpl
          = PodRestart.mainContainerNeverStarted pod2 tmpl) as Heq.
  { rewrite !mainContainerNeverStarted_loop.
    rewrite (mainContainersLoop_filter tmpl (ContainerStatuses (Status pod1))),
      (mainContainersLoop_filter tmpl (ContainerStatuses (Status pod2))).
    now apply mainContainersLoop_Permutation. }
  split; [exact Heq|]. split.
  - now rewrite !Part003_never_started_eq.
  - intros Hinit. now rewrite !Part004_never_started_orb, Hinit, Heq.
Qed.

Lemma never_started_reads_main_containers_witness :
  PodRestart.mainContainerNeverStarted
    (mkPod PodFailed "Evicted" "" [] []
           [container "wait" (running now); container "main" (waiting "")]) None
  = PodRestart.mainContainerNeverStarted
      (mkPod PodFailed "Evicted" "" [] []
             [container "main" (waiting ""); container "sidecar" (terminated 0 "" now)])
      None.
Proof.
  destruct (never_started_reads_main_containers
              (mkPod PodFailed "Evicted" "" [] []
                     [container "wait" (running now); container "main" (waiting "")])
              (mkPod PodFailed "Evicted" "" [] []
                     [container "main" (waiting "");
                      container "sidecar" (terminated 0 "" now)])
              None "init") as [Hsame _]; [|exact Hsame].
  vm_compute. apply Permutation_refl.
Defined.



(** The extractor's result: it never contains a closing bracket, and it
    is the empty string (reason not [Evicted]), the reason [Evicted], or a
    text that stands between brackets in the message. The three sources
    hold the same extractor. *)
Theorem eviction_reason_shape (pod : Pod) :
  Part003.getEvictionReason pod = PodRestart.getEvictionReason pod
  /\ Part004.GetEvictionReason pod = PodRestart.getEvictionReason pod
  /\ exists r,
       PodRestart.getEvictionReason pod = Some r
       /\ ~ hasByte "]" r
       /\ ((Reason (Status pod) <> "Evicted" /\ r = EmptyString)
           \/ (Reason (Status pod) = "Evicted"
               /\ (r = "Evicted"
                   \/ occursIn ("[" ++ r ++ "]") (Message (Status pod))))).
Proof.
  split; [reflexivity|]. split; [reflexivity|].
  destruct (String.eqb_spec (Reason (Status pod)) "Evicted") as [He | He].
  - assert (~ hasByte "]" "Evicted") as Hplain
      by (apply no_byte_decide; reflexivity).
    destruct (first_byte "[" (Message (Status pod)))
      as [Hno | (pre & tail & Hmsg & Hpre)].
    + exists "Evicted". split; [now apply getEvictionReason_no_open|]. auto.
    + destruct (first_byte "]" tail) as [Hno | (X & post & -> & HX)].
      * exists "Evicted".
        split; [now apply (getEvictionReason_no_close pod He pre tail)|]. auto.
      * exists X.
        split; [now apply (getEvictionReason_bracketed pod He pre X post)|].
        split; [exact HX|]. right. split; [exact He|]. right.
        exists pre, post. rewrite Hmsg. simpl. now rewrite append_assoc.
  - exists EmptyString. split; [now apply getEvictionReason_other|].
    split; [intros [] | auto].
Qed.

End EvidenceProperties.

Section IncrementChanges.
Import Props Fixtures.

(** An increment is never a no-op: the [set] inside [increment], whose
    result [increment] drops, always reports a change. *)
Theorem increment_always_changes (wf : wfv1.Workflow) (nodeID : string) :
  fst (Part003.setFailedPodRestartCount wf nodeID
         (fst (Part003.incrementFailedPodRestartCount wf nodeID))) = true.
Proof.
  rewrite increment_unfold. cbn [fst].
  pose proof (get_in_range wf nodeID) as Hc.
  set (c := fst (Part003.getFailedPodRestartCount wf nodeID)) in *.
  pose proof (wrap_in_range (c + 1)) as Hk.
  unfold Int32.add. rewrite set_changed by exact Hk.
  destruct (String.eqb_spec (default EmptyString (storedCount wf nodeID))
              (GoStrconv.FormatInt (Int32.wrap (c + 1)))) as [Heq | Hne];
    [|reflexivity].
  exfalso.
  assert (storedCount wf nodeID = Some (GoStrconv.FormatInt (Int32.wrap (c + 1))))
    as Hstored.
  { destruct (storedCount wf nodeID) as [v|]; simpl in Heq; [now subst|].
    exfalso. symmetry in Heq. revert Heq. apply FormatInt_nonempty. lia. }
  assert (c = Int32.wrap (c + 1)) as Hfix.
  { unfold c at 1. rewrite get_stored, Hstored, ParseInt_FormatInt by exact Hk.
    reflexivity. }
  destruct (Z.eq_dec c (2 ^ 31 - 1)) as [Htop | Htop].
  - rewrite Htop in Hfix. vm_compute in Hfix. discriminate.
  - rewrite wrap_id in Hfix by lia. lia.
Qed.

End IncrementChanges.

(** ** The unit tests, replayed on the classifier they were written for *)

Section UnitTestsUnexported.
Import apiv1 Fixtures.

Example test_unexported_never_started :
  Part003.mainContainerNeverStarted (mkPod PodFailed "" "" [] [] []) None = true
  /\ Part003.mainContainerNeverStarted
       (mkPod PodFailed "" "" [] [] [container "main" (waiting "ContainerCreating")])
       None = true
  /\ Part003.mainContainerNeverStarted
       (mkPod PodFailed "" "" [] [] [container "main" (terminated 1 "" now)])
       None = false
  /\ Part003.mainContainerNeverStarted
       (mkPod PodFailed "" "" [] [] [container "main" (running now)]) None = false
  /\ Part003.mainContainerNeverStarted
       (mkPod PodFailed "" "" [] [] [container "main" (waiting "PodInitializing")])
       None = true
  /\ Part003.mainContainerNeverStarted
       (mkPod PodFailed "" "" [] []
              [container "main" (terminated 137 "OOMKilled" metav1.zero)])
       None = true.
Proof. repeat split; reflexivity. Qed.

Example test_unexported_restartable_reasons :
  Part003.isRestartableReason "Evicted" "The node had condition: [DiskPressure]" [] = true
  /\ Part003.isRestartableReason "Preempted" "" [] = true
  /\ Part003.isRestartableReason "" "Pod was preempted by higher priority pod" [] = true
  /\ Part003.isRestartableReason "NodeShutdown" "" [] = true
  /\ Part003.isRestartableReason "NodeAffinity" "" [] = true
  /\ Part003.isRestartableReason "UnexpectedAdmissionError" "" [] = true
  /\ Part003.isRestartableReason "OOMKilled" "" [] = false
  /\ Part003.isRestartableReason "Error" "some error" [] = false
  /\ Part003.isRestartableReason "" ""
       [{| Type_ := "DisruptionTarget"; CondStatus := ConditionTrue |}] = true
  /\ Part003.isRestartableReason "" ""
       [{| Type_ := "DisruptionTarget"; CondStatus := ConditionFalse |}] = false.
Proof. repeat split; vm_compute; reflexivity. Qed.

Example test_unexported_analyze :
  Part003.analyzePodForRestart runningPod None
  = {| Part003.shouldRestart := false; Part003.reason := "";
       Part003.message := ""; Part003.neverStarted := false |}
  /\ Part003.analyzePodForRestart evictedBeforeStart None
     = {| Part003.shouldRestart := true; Part003.reason := "Evicted";
          Part003.message := "The node had condition: [DiskPressure]";
          Part003.neverStarted := true |}
  /\ Part003.analyzePodForRestart evictedAfterRun None
     = {| Part003.shouldRestart := false; Part003.reason := "Evicted";
          Part003.message := "The node had condition: [DiskPressure]";
          Part003.neverStarted := false |}
  /\ Part003.analyzePodForRestart oomBeforeStart None
     = {| Part003.shouldRestart := false; Part003.reason := "OOMKilled";
          Part003.message := ""; Part003.neverStarted := true |}.
Proof. repeat split; vm_compute; reflexivity. Qed.

Example test_unexported_eviction_reasons :
  Part003.getEvictionReason evictedBeforeStart = Some "DiskPressure"
  /\ Part003.getEvictionReason notEvicted = Some EmptyString
  /\ Part003.getEvictionReason evictedNoBrackets = Some "Evicted".
Proof. repeat split; vm_compute; reflexivity. Qed.

End UnitTestsUnexported.
